(** * UPSgui: display registry and colour palette of ups-utils

    A shallow embedding of [UPSmodules/UPSgui.py]: the [GuiComp] registry
    (add / refresh_gui_data / all_refresh_gui_data) and the [GuiProps]
    palette (color_name_to_hex / color_name_to_rgba / hex_to_rgba /
    set_style), followed by the properties established about them. *)

From Stdlib Require Import ZArith String Ascii List Bool Lia.
From Stdlib Require Import PrimFloat Uint63.
From stdpp Require Import base decidable list strings pretty.
Import ListNotations.

Local Open Scope string_scope.
Local Open Scope list_scope.

(** ** Python values *)

(** The scalar (hashable) values a data source hands out: [None], [str],
    [int] and [bool]. *)
Inductive pyval : Type :=
| PyNone
| PyStr (s : string)
| PyInt (n : Z)
| PyBool (b : bool).

(** [str(v)]. *)
Definition py_str (v : pyval) : string :=
  match v with
  | PyNone => "None"
  | PyStr s => s
  | PyInt n => pretty n
  | PyBool true => "True"
  | PyBool false => "False"
  end.

(** [v == w]: a [str] only equals a [str], [None] only [None]; [bool] is a
    subtype of [int] with [True == 1] and [False == 0]. *)
Definition py_eqb (v w : pyval) : bool :=
  match v, w with
  | PyNone, PyNone => true
  | PyStr s, PyStr t => bool_decide (s = t)
  | PyInt n, PyInt m => bool_decide (n = m)
  | PyBool b, PyBool c => bool_decide (b = c)
  | PyInt n, PyBool b | PyBool b, PyInt n => bool_decide (n = if b then 1%Z else 0%Z)
  | _, _ => false
  end.

(** [v in {w1, ..., wn}]: membership in a set literal is equality with one of
    its elements (equal values hash alike). *)
Definition py_in (v : pyval) (ws : list pyval) : bool := existsb (py_eqb v) ws.

(** [s[:n]] for the first [n] characters, [n] a natural number. *)
Fixpoint str_take (n : nat) (s : string) : string :=
  match n, s with
  | O, _ => ""
  | S _, EmptyString => ""
  | S n', String c s' => String c (str_take n' s')
  end.

(** [s[:stop]] for a Python [int] stop: a negative stop counts from the end
    of the string (and is clamped at its start). *)
Definition py_slice_to (s : string) (stop : Z) : string :=
  if (0 <=? stop)%Z then str_take (Z.to_nat stop) s
  else str_take (String.length s - Z.to_nat (- stop)) s.

(** [s.lstrip(c)]: drop every leading occurrence of the character [c]. *)
Fixpoint str_lstrip (c : ascii) (s : string) : string :=
  match s with
  | String a s' => if bool_decide (a = c) then str_lstrip c s' else s
  | EmptyString => ""
  end.

(** ** Python dictionaries

    A [dict] keyed by strings, kept as the list of its items in insertion
    order (the order [items()], [keys()] and iteration follow). *)

Section pydict.
Context {V : Type}.

Definition pydict : Type := list (string * V).

(** [d[k]], [None] standing for [KeyError]. *)
Fixpoint dict_get (k : string) (d : pydict) : option V :=
  match d with
  | [] => None
  | (k', v) :: d' => if decide (k' = k) then Some v else dict_get k d'
  end.

(** [d.update({k: v})] / [d[k] = v]: an existing key keeps its position,
    a new key goes last. *)
Fixpoint dict_set (k : string) (v : V) (d : pydict) : pydict :=
  match d with
  | [] => [(k, v)]
  | (k', v') :: d' =>
      if decide (k' = k) then (k', v) :: d' else (k', v') :: dict_set k v d'
  end.

(** [d.keys()]. *)
Definition dict_keys (d : pydict) : list string := map fst d.

(** [k in d]. *)
Definition dict_in (k : string) (d : pydict) : bool :=
  match dict_get k d with Some _ => true | None => false end.
End pydict.

Arguments pydict V : clear implicits.

(** ** Exceptions and the effect monad *)

Inductive exn : Type :=
| KeyError (key : string)
| ValueError (msg : string)
| TypeError (msg : string).

Inductive result (A : Type) : Type :=
| Ok (a : A)
| Raise (e : exn).

Arguments Ok {A} a.
Arguments Raise {A} e.

(** ** The registry [GuiComp] *)

(** Gtk widgets are opaque handles; two bindings holding the same handle
    share one widget. *)
Definition widget : Type := nat.

(** One entry [{'label': .., 'box': .., 'box_name': .., 'data': ..}]. *)
Record item_dict : Type := ItemDict {
  label : widget;
  box : option widget;
  box_name : option string;
  data : string
}.

(** [item_dict['data'] = v]. *)
Definition set_data (it : item_dict) (v : string) : item_dict :=
  {| label := label it; box := box it; box_name := box_name it; data := v |}.

(** Modelled from the spec: the data source [UPSmodule.UpsList] is not part
    of the sources at hand.  It is taken as the specification describes it: a
    mapping from device id to that device's field values, with [uuids()]
    enumerating the device ids and the point lookup
    [data_dict[uuid][item_name]] raising [KeyError] where there is no
    entry. *)
Definition UpsList : Type := pydict (pydict pyval).

Definition uuids (d : UpsList) : list string := dict_keys d.

Definition data_lookup (d : UpsList) (uuid item_name : string) : option pyval :=
  match dict_get uuid d with
  | Some prm => dict_get item_name prm
  | None => None
  end.

Definition GuiCompDict : Type := pydict (pydict item_dict).

Record GuiComp : Type := MkGuiComp {
  gc : GuiCompDict;
  data_dict : UpsList;
  max_width : Z
}.

(** [GuiComp.__init__]. *)
Definition GuiComp_init (data_dict : UpsList) (max_width : Z) : GuiComp :=
  {| gc := []; data_dict := data_dict; max_width := max_width |}.

Definition with_gc (self : GuiComp) (g : GuiCompDict) : GuiComp :=
  {| gc := g; data_dict := data_dict self; max_width := max_width self |}.

(** What a method does to the outside world, in the order it does it.  Each
    event carries the loop iteration [(uuid, item_name)] it was issued in. *)
Inductive event : Type :=
| DataGet (uuid item_name : string)
| SetText (uuid item_name : string) (lbl : widget) (text : string).

(** A method of [GuiComp]: from the object's state to its outcome, the
    object's state afterwards and the events issued. *)
Definition M (A : Type) : Type := GuiComp -> result A * GuiComp * list event.

Definition ret {A} (a : A) : M A := fun self => (Ok a, self, []).

Definition raise {A} (e : exn) : M A := fun self => (Raise e, self, []).

Definition bind {A B} (c : M A) (k : A -> M B) : M B := fun self =>
  match c self with
  | (Ok a, self', ev) =>
      match k a self' with
      | (r, self'', ev') => (r, self'', ev ++ ev')
      end
  | (Raise e, self', ev) => (Raise e, self', ev)
  end.

Definition outcome {A} (r : result A * GuiComp * list event) : result A := fst (fst r).
Definition state_after {A} (r : result A * GuiComp * list event) : GuiComp := snd (fst r).
Definition trace {A} (r : result A * GuiComp * list event) : list event := snd r.

(** [GuiComp.add]. *)
Definition add (uuid name : string) (label : widget)
    (box : option widget) (box_name : option string) : M unit := fun self =>
  let entry := {| label := label; box := box; box_name := box_name; data := "---" |} in
  if negb (dict_in uuid (gc self)) then
    (Ok tt, with_gc self (dict_set uuid [(name, entry)] (gc self)), [])
  else
    match dict_get uuid (gc self) with
    | Some items =>
        (Ok tt, with_gc self (dict_set uuid (dict_set name entry items) (gc self)), [])
    | None => (Raise (KeyError uuid), self, [])
    end.

(** The literal [{'-1', None, '', 'No data', 'None'}]. *)
Definition no_data_values : list pyval :=
  [PyStr "-1"; PyNone; PyStr ""; PyStr "No data"; PyStr "None"].

(** The literal [{'mib_ups_name', 'mib_system_status'}]. *)
Definition unresponsive_names : list string := ["mib_ups_name"; "mib_system_status"].

Section Refresh.
(** [UPSmodule.UpsComm.all_mib_cmd_names[UPSmodule.UpsComm.MIB_group.static]]:
    the table of static command names lives in [UPSmodule], outside the
    sources at hand, and is a parameter here. *)
Variable static_names : list string.

(** Lines 119-124 of one loop iteration: the value read from the data
    source ([None] after a [KeyError]), or the placeholder that stands in
    for a no-data value. *)
Definition resolve_value (item_name : string) (read : option pyval) : pyval :=
  let data_value := match read with Some v => v | None => PyNone end in
  if py_in data_value no_data_values then
    PyStr (if bool_decide (item_name ∈ unresponsive_names) then "Unresponsive" else "---")
  else data_value.

(** Line 125: [str(data_value)[:self.max_width]]. *)
Definition render_value (max_width : Z) (item_name : string) (read : option pyval) : string :=
  py_slice_to (py_str (resolve_value item_name read)) max_width.

Definition is_skipped (skip_static : bool) (item_name : string) : bool :=
  skip_static && bool_decide (item_name ∈ static_names).

(** One iteration of the loop of [refresh_gui_data]. *)
Definition refresh_item (self : GuiComp) (uuid : string) (skip_static : bool)
    (item_name : string) (it : item_dict) : item_dict * list event :=
  if is_skipped skip_static item_name then (it, [])
  else
    let data_value :=
      render_value (max_width self) item_name (data_lookup (data_dict self) uuid item_name) in
    (set_data it data_value,
     [DataGet uuid item_name; SetText uuid item_name (label it) data_value]).

(** The loop over [self.gc[uuid].items()].  [item_dict] and
    [self.gc[uuid][item_name]] are one object, so the assignment to its
    ['data'] updates the entry being visited: the dictionary keeps its keys
    and their order. *)
Fixpoint refresh_items (self : GuiComp) (uuid : string) (skip_static : bool)
    (items : pydict item_dict) : pydict item_dict * list event :=
  match items with
  | [] => ([], [])
  | (item_name, it) :: rest =>
      let '(it', ev) := refresh_item self uuid skip_static item_name it in
      let '(rest', evs) := refresh_items self uuid skip_static rest in
      ((item_name, it') :: rest', ev ++ evs)
  end.

(** [GuiComp.refresh_gui_data]. *)
Definition refresh_gui_data (uuid : string) (skip_static : bool) : M unit := fun self =>
  match dict_get uuid (gc self) with
  | None => (Raise (KeyError uuid), self, [])
  | Some items =>
      let '(items', ev) := refresh_items self uuid skip_static items in
      (Ok tt, with_gc self (dict_set uuid items' (gc self)), ev)
  end.

(** The loop of [all_refresh_gui_data] over the ids [uuids()] yields. *)
Fixpoint refresh_each (ids : list string) (skip_static : bool) : M unit :=
  match ids with
  | [] => ret tt
  | uuid :: ids' =>
      bind (refresh_gui_data uuid skip_static) (fun _ => refresh_each ids' skip_static)
  end.

(** [GuiComp.all_refresh_gui_data]. *)
Definition all_refresh_gui_data (skip_static : bool) : M unit := fun self =>
  refresh_each (uuids (data_dict self)) skip_static self.
End Refresh.

(** ** The palette [GuiProps] *)

(** [GuiProps._colors], in the order of the dictionary literal. *)
Definition _colors : pydict string :=
  [ ("white", "#FFFFFF"); ("white_off", "#FCFCFC"); ("white_pp", "#F0E5D3");
    ("cream", "#FFFDD1"); ("gray20", "#CCCCCC"); ("gray50", "#7F7F7F");
    ("gray60", "#666666"); ("gray70", "#4D4D4D"); ("gray80", "#333333");
    ("gray95", "#0D0D0D"); ("gray_dk", "#6A686E"); ("black", "#000000");
    ("green", "#8EC3A7"); ("green_dk", "#6A907C"); ("teal", "#218C8D");
    ("cyan", "#008B8B"); ("olive", "#6C9040"); ("red", "#B73743");
    ("orange", "#E86850"); ("yellow", "#C9A100"); ("blue", "#587498");
    ("purple", "#6264A7");
    ("br_red", "#FF2D2D"); ("br_orange", "#FF6316"); ("br_blue", "#66CCFF");
    ("br_pink", "#CC00FF"); ("br_green", "#99FF99"); ("br_yellow", "#FFFF66");
    ("slate_lt", "#A0A0AA"); ("slate_md", "#80808d"); ("slate_dk", "#5D5D67");
    ("slate_vdk", "#3A3A40") ].

(** [repr(s)] of a [str] without quotes, backslashes or control characters. *)
Definition py_repr_str (s : string) : string := "'" +:+ s +:+ "'".

(** [repr(d)] of a dictionary of such strings. *)
Definition py_repr_dict (d : pydict string) : string :=
  "{" +:+ String.concat ", " (map (fun kv => py_repr_str (fst kv) +:+ ": " +:+ py_repr_str (snd kv)) d)
      +:+ "}".

(** The message ['Invalid color name {} not in {}'.format(value, GuiProps._colors)]. *)
Definition invalid_color_name (value : string) : exn :=
  ValueError ("Invalid color name " +:+ value +:+ " not in " +:+ py_repr_dict _colors).

(** The message ['Invalid hex color format in {}'.format(value)]. *)
Definition invalid_hex_format (value : string) : exn :=
  ValueError ("Invalid hex color format in " +:+ value).

(** [GuiProps._colors[value]]. *)
Definition colors_getitem (value : string) : result string :=
  match dict_get value _colors with
  | Some hex => Ok hex
  | None => Raise (KeyError value)
  end.

(** [GuiProps.color_name_to_hex]. *)
Definition color_name_to_hex (value : string) : result string :=
  if negb (dict_in value _colors) then Raise (invalid_color_name value)
  else colors_getitem value.

(** Numbers in a colour tuple: [float] channels and the [int] alpha. *)
Inductive pynum : Type :=
| PyFloatNum (f : float)
| PyIntNum (n : Z).

(** [float(n)] for an [int] of magnitude below [2^63]. *)
Definition float_of_int (n : Z) : float :=
  if (n <? 0)%Z then PrimFloat.opp (PrimFloat.of_uint63 (Uint63.of_Z (- n)))
  else PrimFloat.of_uint63 (Uint63.of_Z n).

(** [x == y] on numbers ([int] against [float] through [float(n)], exact for
    integers below [2^53]). *)
Definition pynum_eqb (x y : pynum) : bool :=
  match x, y with
  | PyFloatNum f, PyFloatNum g => PrimFloat.eqb f g
  | PyIntNum n, PyIntNum m => bool_decide (n = m)
  | PyIntNum n, PyFloatNum f | PyFloatNum f, PyIntNum n => PrimFloat.eqb (float_of_int n) f
  end.

(** [n / 255.0]: the [int] is converted to [float], then IEEE division. *)
Definition div_255 (n : Z) : float := PrimFloat.div (float_of_int n) 255%float.

Definition rgba : Type := pynum * pynum * pynum * pynum.

(** [t == u] on 4-tuples of numbers. *)
Definition rgba_eqb (t u : rgba) : bool :=
  match t, u with
  | (r1, g1, b1, a1), (r2, g2, b2, a2) =>
      pynum_eqb r1 r2 && pynum_eqb g1 g2 && pynum_eqb b1 b2 && pynum_eqb a1 a2
  end.

(** The value of one hexadecimal digit, either case. *)
Definition hex_digit (c : ascii) : option Z :=
  let n := Z.of_N (N_of_ascii c) in
  if (48 <=? n)%Z && (n <=? 57)%Z then Some (n - 48)%Z
  else if (65 <=? n)%Z && (n <=? 70)%Z then Some (n - 55)%Z
  else if (97 <=? n)%Z && (n <=? 102)%Z then Some (n - 87)%Z
  else None.

Definition is_hex_digit (c : ascii) : bool :=
  match hex_digit c with Some _ => true | None => false end.

Fixpoint all_hex (s : string) : bool :=
  match s with
  | EmptyString => true
  | String c s' => is_hex_digit c && all_hex s'
  end.

(** A string without its leading [#], if it has one. *)
Definition strip_hash (value : string) : string :=
  match value with
  | String c rest => if bool_decide (c = "#"%char) then rest else value
  | EmptyString => value
  end.

(** Exactly six hexadecimal digits. *)
Definition six_hex_digits (s : string) : bool :=
  (String.length s =? 6)%nat && all_hex s.

(** Modelled from the spec: the pattern [PATTERNS['HEXRGB']] is defined in
    [UPSmodules/env.py], which is not part of the sources at hand.  The
    accepted hex pattern is an optional leading [#] followed by exactly six
    hexadecimal digits of either case; this is
    [re.fullmatch(PATTERNS['HEXRGB'], value)] as a boolean. *)
Definition HEXRGB_fullmatch (value : string) : bool :=
  six_hex_digits (strip_hash value).

(** [int(s, 16)] on a string of hexadecimal digits, [None] standing for
    [ValueError]; the signs, blanks, underscores and [0x] prefix that [int]
    also reads are left out (they do not get past a pattern of hexadecimal
    digits). *)
Fixpoint int16_digits (acc : Z) (s : string) : option Z :=
  match s with
  | EmptyString => Some acc
  | String c s' =>
      match hex_digit c with
      | Some d => int16_digits (16 * acc + d)%Z s'
      | None => None
      end
  end.

Definition py_int16 (s : string) : result Z :=
  match s with
  | EmptyString => Raise (ValueError ("invalid literal for int() with base 16: " +:+ py_repr_str s))
  | _ =>
      match int16_digits 0 s with
      | Some n => Ok n
      | None => Raise (ValueError ("invalid literal for int() with base 16: " +:+ py_repr_str s))
      end
  end.

(** [value[i:i + 2]]. *)
Definition pair_at (value : string) (i : nat) : string := String.substring i 2 value.

Section HexRgba.
(** [re.fullmatch(PATTERNS['HEXRGB'], value)] as a boolean.  [PATTERNS] is
    imported from [UPSmodules/env.py], outside the sources at hand, and is a
    parameter of the two functions that consult it. *)
Variable HEXRGB : string -> bool.

(** [GuiProps.hex_to_rgba]. *)
Definition hex_to_rgba (value : string) : result rgba :=
  if negb (HEXRGB value) then Raise (invalid_hex_format value)
  else
    let value := str_lstrip "#" value in
    if negb (String.length value =? 6)%nat then Raise (invalid_hex_format value)
    else
      match py_int16 (pair_at value 0) with
      | Raise e => Raise e
      | Ok r_1 =>
          match py_int16 (pair_at value 2) with
          | Raise e => Raise e
          | Ok g_1 =>
              match py_int16 (pair_at value 4) with
              | Raise e => Raise e
              | Ok b_1 =>
                  let a_1 := 1%Z in
                  Ok (PyFloatNum (div_255 r_1), PyFloatNum (div_255 g_1),
                      PyFloatNum (div_255 b_1), PyIntNum a_1)
              end
          end
      end.

(** [GuiProps.color_name_to_rgba]. *)
Definition color_name_to_rgba (value : string) : result rgba :=
  if negb (dict_in value _colors) then Raise (invalid_color_name value)
  else
    match colors_getitem value with
    | Ok hex => hex_to_rgba hex
    | Raise e => Raise e
    end.
End HexRgba.

(** ** The style sheet [GuiProps.set_style] *)

Definition result_bind {A B} (r : result A) (k : A -> result B) : result B :=
  match r with
  | Ok a => k a
  | Raise e => Raise e
  end.

Fixpoint result_mapM {A B} (f : A -> result B) (l : list A) : result (list B) :=
  match l with
  | [] => Ok []
  | a :: l' =>
      result_bind (f a) (fun b =>
      result_bind (result_mapM f l') (fun bs => Ok (b :: bs)))
  end.

(** [template % args] for templates whose only conversions are [%s]. *)
Fixpoint py_format (template : string) (args : list string) : result string :=
  match template with
  | String "%" (String "s" rest) =>
      match args with
      | a :: args' => result_bind (py_format rest args') (fun s => Ok (a +:+ s))
      | [] => Raise (TypeError "not enough arguments for format string")
      end
  | String c rest => result_bind (py_format rest args) (fun s => Ok (String c s))
  | EmptyString =>
      match args with
      | [] => Ok ""
      | _ :: _ => Raise (TypeError "not all arguments converted during string formatting")
      end
  end.

(** One [css_list.append(template % (cls._colors[n1], ...))]. *)
Definition css_rule (rule : string * list string) : result string :=
  result_bind (result_mapM colors_getitem (snd rule)) (py_format (fst rule)).

(** The templates of lines 267-297 with the colour names they are filled
    with, in the order they are appended. *)
Definition default_css_templates : list (string * list string) :=
  [ ("grid { background-image: image(%s); }", ["gray80"]);
    ("#light_grid { background-image: image(%s); }", ["gray20"]);
    ("#dark_grid { background-image: image(%s); }", ["gray70"]);
    ("#dark_box { background-image: image(%s); }", ["slate_dk"]);
    ("#med_box { background-image: image(%s); }", ["slate_md"]);
    ("#light_box { background-image: image(%s); }", ["slate_lt"]);
    ("#head_box { background-image: image(%s); }", ["blue"]);
    ("#warn_box { background-image: image(%s); }", ["red"]);
    ("#button_box { background-image: image(%s); }", ["slate_dk"]);
    ("#out_load_box { background-image: image(%s); }", ["slate_md"]);
    ("#out_load_label { color: %s; }", ["white_off"]);
    ("#bat_cap_box { background-image: image(%s); }", ["slate_md"]);
    ("#bat_cap_label { color: %s; }", ["white_off"]);
    ("#sys_stat_box { background-image: image(%s); }", ["slate_md"]);
    ("#sys_stat_label { color: %s; }", ["white_off"]);
    ("#bat_stat_box { background-image: image(%s); }", ["slate_md"]);
    ("#bat_stat_label { color: %s; }", ["white_off"]);
    ("#message_box { background-image: image(%s); }", ["gray50"]);
    ("#message_label { color: %s; }", ["white_off"]);
    ("#warn_label { color: %s; }", ["white_pp"]);
    ("#white_label { color: %s; }", ["white_off"]);
    ("#black_label { color: %s; }", ["gray95"]);
    ("#ppm_combo { background-image: image(%s); color: %s; }", ["green"; "black"]);
    ("button { background-image: image(%s); color: %s; }", ["slate_lt"; "black"]);
    ("entry { background-image: image(%s); color: %s; }", ["green"; "gray95"]);
    ("entry:selected { background-image: image(%s); color: %s; }", ["yellow"; "white"]) ].

(** Lines 264-299: the list [css_list] that [set_style] builds. *)
Definition css_list (css_str : option string) : result (list string) :=
  match css_str with
  | None => result_mapM css_rule default_css_templates
  | Some s => Ok [s]
  end.

(** [Gtk.STYLE_PROVIDER_PRIORITY_APPLICATION]. *)
Definition STYLE_PROVIDER_PRIORITY_APPLICATION : Z := 600.

(** The default screen as far as styling goes: the style sheets of the
    providers added to it, each with its priority, oldest first. *)
Definition screen : Type := list (string * Z).

(** [GuiProps.set_style]: one provider per element of [css_list], loaded
    with the element's text and added to the screen.  What Gtk's CSS parser
    makes of a text is Gtk's affair and is left out. *)
Definition set_style (css_str : option string) (scr : screen) : result unit * screen :=
  match css_list css_str with
  | Ok items =>
      (Ok tt, scr ++ map (fun css_item => (css_item, STYLE_PROVIDER_PRIORITY_APPLICATION)) items)
  | Raise e => (Raise e, scr)
  end.

(** *** The style table as the specification lists it *)

(** A region is addressed by widget type ([grid]) or by widget name
    ([#light_grid]). *)
Inductive selector : Type :=
| ByType (name : string)
| ByName (name : string).

Record style_rule : Type := StyleRule {
  region : selector;
  background : option string;
  foreground : option string
}.

(** The region-to-colour table of the specification: one rule per region. *)
Definition spec_style_table : list style_rule :=
  [ StyleRule (ByType "grid") (Some "gray80") None;
    StyleRule (ByName "light_grid") (Some "gray20") None;
    StyleRule (ByName "dark_grid") (Some "gray70") None;
    StyleRule (ByName "dark_box") (Some "slate_dk") None;
    StyleRule (ByName "med_box") (Some "slate_md") None;
    StyleRule (ByName "light_box") (Some "slate_lt") None;
    StyleRule (ByName "head_box") (Some "blue") None;
    StyleRule (ByName "warn_box") (Some "red") None;
    StyleRule (ByName "button_box") (Some "slate_dk") None;
    StyleRule (ByName "out_load_box") (Some "slate_md") None;
    StyleRule (ByName "out_load_label") None (Some "white_off");
    StyleRule (ByName "bat_cap_box") (Some "slate_md") None;
    StyleRule (ByName "bat_cap_label") None (Some "white_off");
    StyleRule (ByName "sys_stat_box") (Some "slate_md") None;
    StyleRule (ByName "sys_stat_label") None (Some "white_off");
    StyleRule (ByName "bat_stat_box") (Some "slate_md") None;
    StyleRule (ByName "bat_stat_label") None (Some "white_off");
    StyleRule (ByName "message_box") (Some "gray50") None;
    StyleRule (ByName "message_label") None (Some "white_off");
    StyleRule (ByName "warn_label") None (Some "white_pp");
    StyleRule (ByName "white_label") None (Some "white_off");
    StyleRule (ByName "black_label") None (Some "gray95");
    StyleRule (ByName "ppm_combo") (Some "green") (Some "black");
    StyleRule (ByType "button") (Some "slate_lt") (Some "black");
    StyleRule (ByType "entry") (Some "green") (Some "gray95") ].

(** The rule the source appends after those of the table. *)
Definition entry_selected_rule : style_rule :=
  StyleRule (ByType "entry:selected") (Some "yellow") (Some "white").

Definition selector_css (s : selector) : string :=
  match s with
  | ByType name => name
  | ByName name => "#" +:+ name
  end.

(** The CSS text of a rule, its colours resolved through the palette;
    [None] when a colour name is not in the palette. *)
Definition rule_css (r : style_rule) : option string :=
  let resolve (c : option string) : option (option string) :=
    match c with
    | None => Some None
    | Some name =>
        match color_name_to_hex name with
        | Ok hex => Some (Some hex)
        | Raise _ => None
        end
    end in
  match resolve (background r), resolve (foreground r) with
  | Some bg, Some fg =>
      Some (selector_css (region r) +:+ " {"
            +:+ match bg with Some hex => " background-image: image(" +:+ hex +:+ ");" | None => "" end
            +:+ match fg with Some hex => " color: " +:+ hex +:+ ";" | None => "" end
            +:+ " }")
  | _, _ => None
  end.

(** ** Histories of a registry *)

(** What the application does with a registry after creating it; the data
    source is the application's to change between calls. *)
Inductive call : Type :=
| CallAdd (uuid name : string) (label : widget) (box : option widget) (box_name : option string)
| CallRefresh (uuid : string) (skip_static : bool)
| CallRefreshAll (skip_static : bool)
| DataChange (d : UpsList).

Definition run_call (static_names : list string) (c : call) : M unit :=
  match c with
  | CallAdd uuid name label box box_name => add uuid name label box box_name
  | CallRefresh uuid skip_static => refresh_gui_data static_names uuid skip_static
  | CallRefreshAll skip_static => all_refresh_gui_data static_names skip_static
  | DataChange d => fun self =>
      (Ok tt, {| gc := gc self; data_dict := d; max_width := max_width self |}, [])
  end.

(** The registry after a sequence of calls; a call that raises leaves the
    registry as it was when the exception left the method. *)
Fixpoint run_calls (static_names : list string) (cs : list call) (self : GuiComp) : GuiComp :=
  match cs with
  | [] => self
  | c :: cs' => run_calls static_names cs' (state_after (run_call static_names c self))
  end.

(** [name] was passed to [add] for the device [uuid]. *)
Definition added (cs : list call) (uuid name : string) : Prop :=
  exists label box box_name, CallAdd uuid name label box box_name ∈ cs.

(** [self.gc[uuid][name]], when both keys are there. *)
Definition binding (self : GuiComp) (uuid name : string) : option item_dict :=
  match dict_get uuid (gc self) with
  | Some items => dict_get name items
  | None => None
  end.

(** The placeholder for a field without data. *)
Definition placeholder (item_name : string) : string :=
  if bool_decide (item_name = "mib_ups_name" \/ item_name = "mib_system_status")
  then "Unresponsive" else "---".

(** A value read is a no-data value when it is missing, [None], or one of
    the four texts. *)
Definition no_data (read : option pyval) : Prop :=
  read = None \/ read = Some PyNone
  \/ exists s, read = Some (PyStr s) /\ s ∈ ["-1"; ""; "No data"; "None"].

(** The text a label shows after a sequence of events: the text of the last
    [set_text] on that widget, [None] if it was not set. *)
Fixpoint label_text (evs : list event) (lbl : widget) : option string :=
  match evs with
  | [] => None
  | ev :: evs' =>
      match label_text evs' lbl with
      | Some text => Some text
      | None =>
          match ev with
          | SetText _ _ lbl' text => if decide (lbl' = lbl) then Some text else None
          | DataGet _ _ => None
          end
      end
  end.

(** No other field of the device is bound to the label of [it]. *)
Definition label_of_one_field (items : pydict item_dict) (item_name : string) (it : item_dict)
  : Prop :=
  forall item_name' it', (item_name', it') ∈ items -> label it' = label it ->
                         item_name' = item_name.

(** The field names of a device and the label each is bound to. *)
Definition labels_of (self : GuiComp) (uuid : string) : option (list (string * widget)) :=
  map (fun entry => (fst entry, label (snd entry))) <$> dict_get uuid (gc self).

(** Two states of one registry: the same data source and width, the same
    devices, fields and labels; only cached values may differ. *)
Definition same_registry (self self' : GuiComp) : Prop :=
  data_dict self' = data_dict self
  /\ max_width self' = max_width self
  /\ forall uuid, labels_of self' uuid = labels_of self uuid.

(** The field names registered for a device, in order. *)
Definition fields_of (self : GuiComp) (uuid : string) : option (list string) :=
  dict_keys <$> dict_get uuid (gc self).

(** A registry agrees with a history of calls: no device and no field of a
    device occurs twice, and the devices and fields present are exactly those
    passed to [add]. *)
Definition registry_matches (self : GuiComp) (cs : list call) : Prop :=
  NoDup (dict_keys (gc self))
  /\ (forall uuid, uuid ∈ dict_keys (gc self) <-> exists name, added cs uuid name)
  /\ (forall uuid names, fields_of self uuid = Some names ->
        NoDup names /\ forall name, name ∈ names <-> added cs uuid name).

(** [c.lower()] and [s.lower()] on ASCII text. *)
Definition ascii_lower (c : ascii) : ascii :=
  let n := N_of_ascii c in
  if (65 <=? n)%N && (n <=? 90)%N then ascii_of_N (n + 32) else c.

Fixpoint str_lower (s : string) : string :=
  match s with
  | EmptyString => ""
  | String c s' => String (ascii_lower c) (str_lower s')
  end.

(** [0.0 <= x <= 1.0] on a colour channel. *)
Definition in_unit_interval (x : pynum) : bool :=
  match x with
  | PyFloatNum f => PrimFloat.leb 0%float f && PrimFloat.leb f 1%float
  | PyIntNum n => (0 <=? n)%Z && (n <=? 1)%Z
  end.

(** ** A small installation, for evaluating the definitions *)

Definition example_static_names : list string :=
  ["mib_ups_name"; "mib_ups_model"].

Definition example_data : UpsList :=
  [ ("ups-1",
     [ ("mib_ups_name", PyStr "None");
       ("mib_ups_model", PyStr "Smart-UPS 1500 RM");
       ("mib_output_load", PyStr "-1");
       ("mib_battery_capacity", PyInt 100);
       ("mib_system_temperature", PyInt (-1)) ]) ].

Definition example_gui : GuiComp :=
  {| gc :=
       [ ("ups-1",
          [ ("mib_ups_name", ItemDict 1 None None "---");
            ("mib_ups_model", ItemDict 2 None None "Smart-UPS ");
            ("mib_system_status", ItemDict 3 (Some 30) (Some "sys_stat_box") "---");
            ("mib_output_load", ItemDict 4 (Some 40) (Some "out_load_box") "17");
            ("mib_battery_capacity", ItemDict 5 None None "---");
            ("mib_system_temperature", ItemDict 6 None None "---") ]) ];
     data_dict := example_data;
     max_width := 10 |}.

(** The same registry once the data source has found a second device that
    no widget has been registered for. *)
Definition example_gui_new_device : GuiComp :=
  {| gc := gc example_gui;
     data_dict := example_data ++ [("ups-2", [("mib_ups_name", PyStr "rack-2")])];
     max_width := 10 |}.

(** ** The rest of the module *)

(** [get_color] (module level). *)
Definition get_color (value : string) : result string := color_name_to_hex value.

(** [GuiComp.items]: the [(uuid, gc)] pairs the generator yields, in order. *)
Definition GuiComp_items (self : GuiComp) : list (string * pydict item_dict) := gc self.

(** [GuiProps.set_gtk_prop].  The widget is known by the calls made on it. *)
Module GtkProp.

Inductive gtk_call : Type :=
| set_property (name : string) (value : Z)
| set_max_width_chars (n : Z)
| set_width_chars (n : Z)
| set_max_length (n : Z)
| set_alignment_xalign (xalign : float)
| set_alignment (args : list float).

(** The keyword arguments, [None] when left out. *)
Record args : Type := Args {
  top : option Z;
  bottom : option Z;
  right : option Z;
  left : option Z;
  width : option Z;
  width_chars : option Z;
  width_max : option Z;
  max_length : option Z;
  align : option (list float);
  xalign : option float
}.

(** A call with no keyword argument. *)
Definition no_args : args :=
  Args None None None None None None None None None None.

(** [if x:] on an [int] or [None]: the value when it is not zero. *)
Definition truthy_int (x : option Z) : option Z :=
  match x with
  | Some n => if bool_decide (n = 0%Z) then None else Some n
  | None => None
  end.

(** [if x:] on a [float] or [None]: the value when it does not equal zero
    (a NaN does not). *)
Definition truthy_float (x : option float) : option float :=
  match x with
  | Some f => if PrimFloat.eqb f 0%float then None else Some f
  | None => None
  end.

(** [if x:] on a tuple or [None]: the tuple when it is not empty. *)
Definition truthy_tuple (x : option (list float)) : option (list float) :=
  match x with
  | Some [] => None
  | Some t => Some t
  | None => None
  end.

Definition when {A} (x : option A) (call : A -> gtk_call) : list gtk_call :=
  match x with
  | Some a => [call a]
  | None => []
  end.

Definition set_gtk_prop (a : args) : list gtk_call :=
  when (truthy_int (top a)) (set_property "margin-top")
  ++ when (truthy_int (bottom a)) (set_property "margin-bottom")
  ++ when (truthy_int (right a)) (set_property "margin-right")
  ++ when (truthy_int (left a)) (set_property "margin-left")
  ++ when (truthy_int (width a)) (set_property "width-request")
  ++ when (truthy_int (width_max a)) set_max_width_chars
  ++ when (truthy_int (width_chars a)) set_width_chars
  ++ when (truthy_int (max_length a)) set_max_length
  ++ when (truthy_float (xalign a)) set_alignment_xalign
  ++ when (truthy_tuple (align a)) set_alignment.

(** The arguments with every falsy one left out. *)
Definition truthy_args (a : args) : args :=
  {| top := truthy_int (top a); bottom := truthy_int (bottom a);
     right := truthy_int (right a); left := truthy_int (left a);
     width := truthy_int (width a); width_chars := truthy_int (width_chars a);
     width_max := truthy_int (width_max a); max_length := truthy_int (max_length a);
     align := truthy_tuple (align a); xalign := truthy_float (xalign a) |}.

End GtkProp.

(** The fields of a device that a pass processes. *)
Definition processed (static_names : list string) (skip_static : bool)
    (items : pydict item_dict) : pydict item_dict :=
  List.filter (fun entry => negb (is_skipped static_names skip_static (fst entry))) items.

(** Two registries that differ at most in cached values. *)
Definition only_data_differs (self self' : GuiComp) : Prop :=
  data_dict self' = data_dict self
  /\ max_width self' = max_width self
  /\ dict_keys (gc self') = dict_keys (gc self)
  /\ (forall uuid, fields_of self' uuid = fields_of self uuid)
  /\ (forall uuid item_name,
        match binding self uuid item_name with
        | Some it => exists text, binding self' uuid item_name = Some (set_data it text)
        | None => binding self' uuid item_name = None
        end).

(** The keys of a dictionary filled by setting [keys] one after the other:
    each key at the place of its first occurrence. *)
Definition see (seen : list string) (k : string) : list string :=
  if bool_decide (k ∈ seen) then seen else seen ++ [k].

Definition first_seen (keys : list string) : list string := fold_left see keys [].

(** The device ids passed to [add], in call order. *)
Definition added_uuids (cs : list call) : list string :=
  flat_map (fun c => match c with CallAdd uuid _ _ _ _ => [uuid] | _ => [] end) cs.

(** The field names passed to [add] for one device, in call order. *)
Definition added_names (cs : list call) (uuid : string) : list string :=
  flat_map (fun c => match c with
                     | CallAdd uuid' name _ _ _ => if bool_decide (uuid' = uuid) then [name] else []
                     | _ => []
                     end) cs.

(** The data source the application installed last, if it installed one. *)
Definition last_data_change (cs : list call) (d : UpsList) : UpsList :=
  fold_left (fun d c => match c with DataChange d' => d' | _ => d end) cs d.

(** The bytes [0 .. 255]. *)
Definition channel_values : list Z := map Z.of_nat (seq 0 256).

(** All 256 characters. *)
Definition all_ascii : list ascii := map (fun n => ascii_of_nat n) (seq 0 256).

(** ** Dictionaries: lookup, update and keys *)

Section pydict_facts.
Context {V : Type}.
Implicit Types (d : pydict V) (k : string) (v : V).

Lemma dict_get_Some_elem k v d : dict_get k d = Some v -> (k, v) ∈ d.
Proof.
  induction d as [|[k' v'] d IH]; simpl; [discriminate|].
  destruct (decide (k' = k)) as [->|Hne]; intros H.
  - injection H as ->. apply list_elem_of_here.
  - apply list_elem_of_further. auto.
Qed.

Lemma dict_get_None k d : dict_get k d = None <-> k ∉ dict_keys d.
Proof.
  induction d as [|[k' v'] d IH]; simpl.
  - split; [intros _; apply not_elem_of_nil | reflexivity].
  - rewrite not_elem_of_cons. destruct (decide (k' = k)) as [->|Hne].
    + split; [discriminate | intros [H _]; congruence].
    + rewrite IH. unfold dict_keys. intuition congruence.
Qed.

Lemma dict_get_is_Some k d : is_Some (dict_get k d) <-> k ∈ dict_keys d.
Proof.
  destruct (dict_get k d) as [v|] eqn:E.
  - split; [intros _ | intros _; eauto].
    apply dict_get_Some_elem in E. apply list_elem_of_fmap. now exists (k, v).
  - apply dict_get_None in E. split; [intros [v Hv]; discriminate | tauto].
Qed.

Lemma dict_in_true k d : dict_in k d = true <-> k ∈ dict_keys d.
Proof.
  unfold dict_in. rewrite <- dict_get_is_Some.
  destruct (dict_get k d); split; eauto; try discriminate.
  intros [v Hv]; discriminate.
Qed.

Lemma dict_get_set_eq k v d : dict_get k (dict_set k v d) = Some v.
Proof.
  induction d as [|[k' v'] d IH]; simpl.
  - now rewrite decide_True.
  - destruct (decide (k' = k)) as [->|Hne]; simpl.
    + now rewrite decide_True.
    + now rewrite decide_False.
Qed.

Lemma dict_get_set_ne k k' v d : k <> k' -> dict_get k' (dict_set k v d) = dict_get k' d.
Proof.
  intros Hne. induction d as [|[k0 v0] d IH]; simpl.
  - now rewrite decide_False.
  - destruct (decide (k0 = k)) as [->|Hne0]; simpl.
    + now rewrite !decide_False.
    + destruct (decide (k0 = k')); auto.
Qed.

Lemma dict_keys_set_old k v d :
  k ∈ dict_keys d -> dict_keys (dict_set k v d) = dict_keys d.
Proof.
  induction d as [|[k' v'] d IH]; simpl.
  - intros H. now apply elem_of_nil in H.
  - destruct (decide (k' = k)) as [->|Hne]; simpl; [reflexivity|].
    rewrite elem_of_cons. intros [H|H]; [congruence|]. f_equal. auto.
Qed.

Lemma dict_keys_set_new k v d :
  k ∉ dict_keys d -> dict_keys (dict_set k v d) = dict_keys d ++ [k].
Proof.
  induction d as [|[k' v'] d IH]; simpl; [reflexivity|].
  rewrite not_elem_of_cons.
  destruct (decide (k' = k)) as [->|Hne]; simpl.
  - intros [H _]. congruence.
  - intros [_ H]. f_equal. auto.
Qed.

Lemma dict_keys_set_elem k k' v d :
  k' ∈ dict_keys (dict_set k v d) <-> k' = k \/ k' ∈ dict_keys d.
Proof.
  destruct (decide (k ∈ dict_keys d)) as [Hin|Hout].
  - rewrite dict_keys_set_old by assumption. split; [tauto|].
    intros [->|H]; assumption.
  - rewrite dict_keys_set_new by assumption.
    rewrite elem_of_app, list_elem_of_singleton. tauto.
Qed.

Lemma dict_keys_set_NoDup k v d :
  NoDup (dict_keys d) -> NoDup (dict_keys (dict_set k v d)).
Proof.
  intros Hnd. destruct (decide (k ∈ dict_keys d)) as [Hin|Hout].
  - now rewrite dict_keys_set_old.
  - rewrite dict_keys_set_new by assumption.
    apply NoDup_app. split; [assumption|]. split.
    + intros x Hx Hk. apply list_elem_of_singleton in Hk. congruence.
    + apply NoDup_singleton.
Qed.
End pydict_facts.

(** ** Strings: slices *)

Lemma str_take_length n s : String.length (str_take n s) = Nat.min n (String.length s).
Proof.
  revert s. induction n as [|n IH]; intros [|c s]; simpl; auto.
Qed.

Lemma str_take_prefix n s : exists rest, s = str_take n s +:+ rest.
Proof.
  revert s. induction n as [|n IH]; intros s.
  - exists s. now destruct s.
  - destruct s as [|c s]; simpl.
    + now exists "".
    + destruct (IH s) as [rest Hrest]. exists rest.
      change (String c s = String c (str_take n s +:+ rest)). now f_equal.
Qed.

Lemma str_take_all n s : String.length s <= n -> str_take n s = s.
Proof.
  revert s. induction n as [|n IH]; intros [|c s]; simpl; auto; intros H.
  - lia.
  - f_equal. apply IH. lia.
Qed.

Lemma py_slice_to_nonneg s stop :
  (0 <= stop)%Z -> py_slice_to s stop = str_take (Z.to_nat stop) s.
Proof.
  intros H. unfold py_slice_to. destruct (Z.leb_spec 0 stop); [reflexivity | lia].
Qed.

(** ** One refresh pass over a device *)

Section refresh_facts.
Variable static_names : list string.
Variables (self : GuiComp) (uuid : string) (skip_static : bool).

Local Abbreviation item := (refresh_item static_names self uuid skip_static).
Local Abbreviation items_of := (refresh_items static_names self uuid skip_static).

Lemma refresh_items_cons item_name it rest :
  items_of ((item_name, it) :: rest)
  = ((item_name, fst (item item_name it)) :: fst (items_of rest),
     snd (item item_name it) ++ snd (items_of rest)).
Proof.
  simpl. destruct (item item_name it), (items_of rest). reflexivity.
Qed.

Lemma refresh_items_keys items : dict_keys (fst (items_of items)) = dict_keys items.
Proof.
  induction items as [|[n it] rest IH]; [reflexivity|].
  rewrite refresh_items_cons. simpl. now rewrite IH.
Qed.

Lemma refresh_items_get items item_name :
  dict_get item_name (fst (items_of items))
  = (fun it => fst (item item_name it)) <$> dict_get item_name items.
Proof.
  induction items as [|[n it] rest IH]; [reflexivity|].
  rewrite refresh_items_cons. simpl.
  destruct (decide (n = item_name)) as [->|Hne]; [reflexivity | exact IH].
Qed.

Lemma refresh_items_trace items e :
  e ∈ snd (items_of items)
  <-> exists item_name it, (item_name, it) ∈ items /\ e ∈ snd (item item_name it).
Proof.
  induction items as [|[n it] rest IH].
  - simpl. split; [intros H; now apply elem_of_nil in H|].
    intros (? & ? & H & _). now apply elem_of_nil in H.
  - rewrite refresh_items_cons. simpl. rewrite elem_of_app, IH. split.
    + intros [H|(n' & it' & Hin & H)].
      * exists n, it. split; [apply list_elem_of_here | assumption].
      * exists n', it'. split; [now apply list_elem_of_further | assumption].
    + intros (n' & it' & Hin & H). apply elem_of_cons in Hin as [Heq|Hin].
      * injection Heq as -> ->. now left.
      * right. eauto.
Qed.

Lemma refresh_items_again items :
  items_of (fst (items_of items)) = items_of items.
Proof.
  induction items as [|[n it] rest IH]; [reflexivity|].
  rewrite refresh_items_cons. simpl fst. rewrite refresh_items_cons, IH.
  unfold refresh_item. destruct (is_skipped _ _ _); reflexivity.
Qed.

Lemma refresh_gui_data_registered items :
  dict_get uuid (gc self) = Some items ->
  refresh_gui_data static_names uuid skip_static self
  = (Ok tt, with_gc self (dict_set uuid (fst (items_of items)) (gc self)), snd (items_of items)).
Proof.
  intros H. unfold refresh_gui_data. rewrite H. now destruct (items_of items).
Qed.

Lemma refresh_gui_data_unregistered :
  dict_get uuid (gc self) = None ->
  refresh_gui_data static_names uuid skip_static self = (Raise (KeyError uuid), self, []).
Proof.
  intros H. unfold refresh_gui_data. now rewrite H.
Qed.

(** The entry of a field after the pass, from the entry before it. *)
Lemma refresh_gui_data_binding item_name :
  is_Some (dict_get uuid (gc self)) ->
  binding (state_after (refresh_gui_data static_names uuid skip_static self)) uuid item_name
  = (fun it => fst (item item_name it)) <$> binding self uuid item_name.
Proof.
  intros [items H]. rewrite (refresh_gui_data_registered items H).
  unfold binding, state_after. simpl. rewrite dict_get_set_eq, H.
  apply refresh_items_get.
Qed.

(** The entries of the other devices are not touched. *)
Lemma refresh_gui_data_binding_other uuid' item_name :
  uuid <> uuid' ->
  binding (state_after (refresh_gui_data static_names uuid skip_static self)) uuid' item_name
  = binding self uuid' item_name.
Proof.
  intros Hne. destruct (dict_get uuid (gc self)) as [items|] eqn:H.
  - rewrite (refresh_gui_data_registered items H).
    unfold binding, state_after. simpl. now rewrite dict_get_set_ne.
  - now rewrite (refresh_gui_data_unregistered H).
Qed.

Lemma refresh_gui_data_trace items e :
  dict_get uuid (gc self) = Some items ->
  e ∈ trace (refresh_gui_data static_names uuid skip_static self)
  <-> exists item_name it, (item_name, it) ∈ items /\ e ∈ snd (item item_name it).
Proof.
  intros H. rewrite (refresh_gui_data_registered items H). apply refresh_items_trace.
Qed.

Lemma refresh_gui_data_keys :
  dict_keys (gc (state_after (refresh_gui_data static_names uuid skip_static self)))
  = dict_keys (gc self).
Proof.
  destruct (dict_get uuid (gc self)) as [items|] eqn:H.
  - rewrite (refresh_gui_data_registered items H). unfold state_after. simpl.
    apply dict_keys_set_old, dict_get_is_Some. eauto.
  - now rewrite (refresh_gui_data_unregistered H).
Qed.

Lemma refresh_gui_data_config :
  let self' := state_after (refresh_gui_data static_names uuid skip_static self) in
  data_dict self' = data_dict self /\ max_width self' = max_width self.
Proof.
  destruct (dict_get uuid (gc self)) as [items|] eqn:H.
  - now rewrite (refresh_gui_data_registered items H).
  - now rewrite (refresh_gui_data_unregistered H).
Qed.
End refresh_facts.

(** ** Value resolution *)

Lemma is_skipped_false static_names skip_static item_name :
  skip_static = false \/ item_name ∉ static_names ->
  is_skipped static_names skip_static item_name = false.
Proof.
  unfold is_skipped. intros [->|H]; [reflexivity|].
  rewrite bool_decide_false by assumption. apply andb_false_r.
Qed.

Lemma is_skipped_true static_names item_name :
  item_name ∈ static_names -> is_skipped static_names true item_name = true.
Proof.
  intros H. unfold is_skipped. now rewrite bool_decide_true.
Qed.

Lemma placeholder_unresponsive item_name :
  (if bool_decide (item_name ∈ unresponsive_names) then "Unresponsive" else "---")
  = placeholder item_name.
Proof.
  unfold placeholder, unresponsive_names.
  rewrite (bool_decide_ext (item_name ∈ ["mib_ups_name"; "mib_system_status"])
             (item_name = "mib_ups_name" \/ item_name = "mib_system_status")); [reflexivity|].
  rewrite !elem_of_cons, elem_of_nil. tauto.
Qed.

Lemma resolve_value_no_data item_name read :
  no_data read -> resolve_value item_name read = PyStr (placeholder item_name).
Proof.
  unfold resolve_value.
  intros [->|[->|(s & -> & Hs)]]; simpl; rewrite ?placeholder_unresponsive; try reflexivity.
  repeat (apply elem_of_cons in Hs as [->|Hs]; [reflexivity|]).
  now apply elem_of_nil in Hs.
Qed.

Lemma resolve_value_data item_name v :
  v <> PyNone -> (forall s, v = PyStr s -> s ∉ ["-1"; ""; "No data"; "None"]) ->
  resolve_value item_name (Some v) = v.
Proof.
  intros Hnone Hstr. unfold resolve_value.
  destruct v as [|s|n|b]; simpl; try reflexivity; [congruence|].
  specialize (Hstr s eq_refl). rewrite !not_elem_of_cons in Hstr.
  destruct Hstr as (H1 & H2 & H3 & H4 & _).
  now rewrite !bool_decide_false by assumption.
Qed.

(** What a pass does for a registered field it does not skip. *)
Lemma refresh_gui_data_field static_names self uuid skip_static item_name it :
  binding self uuid item_name = Some it ->
  is_skipped static_names skip_static item_name = false ->
  let r := refresh_gui_data static_names uuid skip_static self in
  let text :=
    render_value (max_width self) item_name (data_lookup (data_dict self) uuid item_name) in
  outcome r = Ok tt
  /\ binding (state_after r) uuid item_name = Some (set_data it text)
  /\ DataGet uuid item_name ∈ trace r
  /\ SetText uuid item_name (label it) text ∈ trace r.
Proof.
  intros Hb Hskip r text.
  assert (exists items, dict_get uuid (gc self) = Some items /\ dict_get item_name items = Some it)
    as (items & Hitems & Hit).
  { unfold binding in Hb. destruct (dict_get uuid (gc self)) as [items|]; [eauto | discriminate]. }
  assert (refresh_item static_names self uuid skip_static item_name it
          = (set_data it text,
             [DataGet uuid item_name; SetText uuid item_name (label it) text])) as Hitem.
  { unfold refresh_item. now rewrite Hskip. }
  split; [|split].
  - subst r. now rewrite (refresh_gui_data_registered _ _ _ _ items Hitems).
  - subst r. rewrite refresh_gui_data_binding by eauto. now rewrite Hb; simpl; rewrite Hitem.
  - split; apply (refresh_gui_data_trace _ _ _ _ items _ Hitems);
      exists item_name, it; (split; [now apply dict_get_Some_elem|]);
      rewrite Hitem; simpl; rewrite !elem_of_cons; auto.
Qed.

(** A label set at least once, and always to the same text, shows it. *)
Lemma label_text_all_same evs lbl text :
  (exists uuid item_name, SetText uuid item_name lbl text ∈ evs) ->
  (forall uuid item_name text', SetText uuid item_name lbl text' ∈ evs -> text' = text) ->
  label_text evs lbl = Some text.
Proof.
  induction evs as [|ev evs IH]; intros (u & n & Hin) Hall.
  - now apply elem_of_nil in Hin.
  - simpl. destruct (label_text evs lbl) as [text'|] eqn:Hrest.
    + assert (exists u' n', SetText u' n' lbl text' ∈ evs) as (u' & n' & Hin').
      { clear -Hrest. induction evs as [|ev evs IH]; [discriminate|]. simpl in Hrest.
        destruct (label_text evs lbl) as [t|].
        - injection Hrest as ->. destruct (IH eq_refl) as (u' & n' & H).
          exists u', n'. now apply list_elem_of_further.
        - destruct ev as [|u' n' l t]; [discriminate|].
          destruct (decide (l = lbl)) as [->|]; [|discriminate].
          injection Hrest as ->. exists u', n'. apply list_elem_of_here. }
      f_equal. apply (Hall u' n'). now apply list_elem_of_further.
    + apply elem_of_cons in Hin as [<-|Hin].
      * now rewrite decide_True.
      * enough (@None string = Some text) by discriminate.
        apply IH; [eauto|]. intros u' n' t' Ht'. apply (Hall u' n').
        now apply list_elem_of_further.
Qed.

(** After a pass a label bound to one field only shows that field's text. *)
Lemma refresh_gui_data_label_text static_names self uuid skip_static items item_name it :
  dict_get uuid (gc self) = Some items ->
  dict_get item_name items = Some it ->
  is_skipped static_names skip_static item_name = false ->
  label_of_one_field items item_name it ->
  label_text (trace (refresh_gui_data static_names uuid skip_static self)) (label it)
  = Some (render_value (max_width self) item_name
            (data_lookup (data_dict self) uuid item_name)).
Proof.
  intros Hitems Hit Hskip Hone.
  assert (binding self uuid item_name = Some it) as Hb
    by (unfold binding; now rewrite Hitems).
  destruct (refresh_gui_data_field static_names self uuid skip_static item_name it Hb Hskip)
    as (_ & _ & _ & Hset).
  apply label_text_all_same; [eauto|].
  intros u n text' Hin.
  destruct (proj1 (refresh_gui_data_trace static_names self uuid skip_static items _ Hitems) Hin)
    as (n' & it' & Hentry & Hev).
  unfold refresh_item in Hev. destruct (is_skipped static_names skip_static n').
  - now apply elem_of_nil in Hev.
  - simpl in Hev. rewrite !elem_of_cons, elem_of_nil in Hev.
    destruct Hev as [Hev|[Hev|[]]]; [discriminate Hev|].
    injection Hev as _ -> Hl ->. symmetry in Hl.
    now rewrite (Hone n' it' Hentry Hl).
Qed.

(** The two together: what a pass does for a registered field it does not
    skip, and what its label shows afterwards. *)
Lemma refresh_gui_data_shown static_names self uuid skip_static item_name it :
  binding self uuid item_name = Some it ->
  skip_static = false \/ item_name ∉ static_names ->
  let r := refresh_gui_data static_names uuid skip_static self in
  let text :=
    py_slice_to (py_str (resolve_value item_name (data_lookup (data_dict self) uuid item_name)))
      (max_width self) in
  outcome r = Ok tt
  /\ binding (state_after r) uuid item_name = Some (set_data it text)
  /\ SetText uuid item_name (label it) text ∈ trace r
  /\ (forall items, dict_get uuid (gc self) = Some items ->
                    label_of_one_field items item_name it ->
                    label_text (trace r) (label it) = Some text).
Proof.
  intros Hb Hskip r text. apply is_skipped_false in Hskip.
  destruct (refresh_gui_data_field static_names self uuid skip_static item_name it Hb Hskip)
    as (Hok & Hafter & _ & Hset).
  repeat split; try assumption.
  intros items Hitems Hone.
  apply (refresh_gui_data_label_text static_names self uuid skip_static items); try assumption.
  unfold binding in Hb. now rewrite Hitems in Hb.
Qed.

(** ** The refresh protocol *)

(** C1: for a registered field that is not skipped as static, a value that
    is missing from the data source, [None], or one of the texts ["-1"], [""],
    ["No data"], ["None"] is replaced by ["Unresponsive"] for the fields
    [mib_ups_name] and [mib_system_status] and by ["---"] for every other
    field; the label is set to that placeholder, cut to the maximum width, and
    so is the cached value. *)
Theorem refresh_no_data_placeholder static_names self uuid skip_static item_name it :
  binding self uuid item_name = Some it ->
  skip_static = false \/ item_name ∉ static_names ->
  no_data (data_lookup (data_dict self) uuid item_name) ->
  let r := refresh_gui_data static_names uuid skip_static self in
  let text := py_slice_to (placeholder item_name) (max_width self) in
  outcome r = Ok tt
  /\ binding (state_after r) uuid item_name = Some (set_data it text)
  /\ data (set_data it text) = text
  /\ SetText uuid item_name (label it) text ∈ trace r
  /\ (forall items, dict_get uuid (gc self) = Some items ->
                    label_of_one_field items item_name it ->
                    label_text (trace r) (label it) = Some text).
Proof.
  intros Hb Hskip Hread r text.
  destruct (refresh_gui_data_shown static_names self uuid skip_static item_name it Hb Hskip)
    as (Hok & Hafter & Hset & Hlabel).
  rewrite (resolve_value_no_data _ _ Hread) in Hafter, Hset, Hlabel.
  repeat split; assumption.
Qed.

Lemma refresh_no_data_placeholder_witness :
  let r := refresh_gui_data example_static_names "ups-1" true example_gui in
  outcome r = Ok tt
  /\ binding (state_after r) "ups-1" "mib_system_status"
     = Some (ItemDict 3 (Some 30) (Some "sys_stat_box") "Unresponsi")
  /\ binding (state_after r) "ups-1" "mib_output_load"
     = Some (ItemDict 4 (Some 40) (Some "out_load_box") "---")
  /\ SetText "ups-1" "mib_system_status" 3 "Unresponsi" ∈ trace r
  /\ SetText "ups-1" "mib_output_load" 4 "---" ∈ trace r.
Proof.
  assert ("mib_system_status" ∉ example_static_names) as H1 by compute_done.
  assert ("mib_output_load" ∉ example_static_names) as H2 by compute_done.
  pose proof (refresh_no_data_placeholder example_static_names example_gui "ups-1" true
    "mib_system_status" (ItemDict 3 (Some 30) (Some "sys_stat_box") "---")
    eq_refl (or_intror H1) (or_introl eq_refl)) as (Ha & Hb & _ & Hc & _).
  pose proof (refresh_no_data_placeholder example_static_names example_gui "ups-1" true
    "mib_output_load" (ItemDict 4 (Some 40) (Some "out_load_box") "17")
    eq_refl (or_intror H2)
    (or_intror (or_intror (ex_intro _ "-1" (conj eq_refl (list_elem_of_here _ _))))))
    as (_ & Hd & _ & He & _).
  repeat split; assumption.
Defined.

(** C10: the no-data test compares the value as read, before [str] is
    applied: a value read that is neither [None] nor one of the four no-data
    texts is never replaced by a placeholder; its text, cut to the maximum
    width, is what the label and the cache receive.  The integer [-1], whose
    text ["-1"] is a no-data text, is such a value and is shown as ["-1"]. *)
Theorem refresh_compares_raw_value static_names self uuid skip_static item_name it v :
  binding self uuid item_name = Some it ->
  skip_static = false \/ item_name ∉ static_names ->
  data_lookup (data_dict self) uuid item_name = Some v ->
  v <> PyNone ->
  (forall s, v = PyStr s -> s ∉ ["-1"; ""; "No data"; "None"]) ->
  let r := refresh_gui_data static_names uuid skip_static self in
  let text := py_slice_to (py_str v) (max_width self) in
  outcome r = Ok tt
  /\ binding (state_after r) uuid item_name = Some (set_data it text)
  /\ SetText uuid item_name (label it) text ∈ trace r
  /\ (forall items, dict_get uuid (gc self) = Some items ->
                    label_of_one_field items item_name it ->
                    label_text (trace r) (label it) = Some text)
  /\ (v = PyInt (-1) -> text = py_slice_to "-1" (max_width self)).
Proof.
  intros Hb Hskip Hread Hnone Hstr r text.
  destruct (refresh_gui_data_shown static_names self uuid skip_static item_name it Hb Hskip)
    as (Hok & Hafter & Hset & Hlabel).
  rewrite Hread, (resolve_value_data _ _ Hnone Hstr) in Hafter, Hset, Hlabel.
  repeat split; try assumption.
  intros ->. reflexivity.
Qed.

Lemma refresh_compares_raw_value_witness :
  let r := refresh_gui_data example_static_names "ups-1" false example_gui in
  outcome r = Ok tt
  /\ binding (state_after r) "ups-1" "mib_system_temperature" = Some (ItemDict 6 None None "-1")
  /\ SetText "ups-1" "mib_system_temperature" 6 "-1" ∈ trace r.
Proof.
  assert (forall s, PyInt (-1) = PyStr s -> s ∉ ["-1"; ""; "No data"; "None"]) as Hstr
    by (intros s Hs; discriminate Hs).
  pose proof (refresh_compares_raw_value example_static_names example_gui "ups-1" false
    "mib_system_temperature" (ItemDict 6 None None "---") (PyInt (-1))
    eq_refl (or_introl eq_refl) eq_refl
    (fun H : PyInt (-1) = PyNone => eq_ind (PyInt (-1))
       (fun v => match v with PyInt _ => True | _ => False end) I PyNone H)
    Hstr) as (Ha & Hb & Hc & _ & _).
  repeat split; assumption.
Defined.

(** C2: the text a pass shows for a registered field it processes is the
    text of the resolved value cut to the maximum width of the registry: it is
    a prefix of that text, it is no longer than the width, a text longer than
    the width is cut to exactly the width, and a text that fits is shown
    whole.  The width is the registry's, the same for every device and field,
    and a pass leaves it as it is.  (A width is a number of characters, so not
    negative.) *)
Theorem refresh_truncates_to_max_width static_names self uuid skip_static item_name it :
  (0 <= max_width self)%Z ->
  binding self uuid item_name = Some it ->
  skip_static = false \/ item_name ∉ static_names ->
  let r := refresh_gui_data static_names uuid skip_static self in
  let width := Z.to_nat (max_width self) in
  let full := py_str (resolve_value item_name (data_lookup (data_dict self) uuid item_name)) in
  exists shown,
    binding (state_after r) uuid item_name = Some (set_data it shown)
    /\ SetText uuid item_name (label it) shown ∈ trace r
    /\ (forall items, dict_get uuid (gc self) = Some items ->
                      label_of_one_field items item_name it ->
                      label_text (trace r) (label it) = Some shown)
    /\ shown = str_take width full
    /\ (exists rest, full = shown +:+ rest)
    /\ String.length shown <= width
    /\ (width < String.length full -> String.length shown = width)
    /\ (String.length full <= width -> shown = full)
    /\ max_width (state_after r) = max_width self.
Proof.
  intros Hw Hb Hskip r width full.
  destruct (refresh_gui_data_shown static_names self uuid skip_static item_name it Hb Hskip)
    as (Hok & Hafter & Hset & Hlabel).
  fold full in Hafter, Hset, Hlabel.
  rewrite (py_slice_to_nonneg _ _ Hw) in Hafter, Hset, Hlabel.
  fold width in Hafter, Hset, Hlabel.
  exists (str_take width full).
  split; [exact Hafter|]. split; [exact Hset|]. split; [exact Hlabel|]. split; [reflexivity|].
  split; [apply str_take_prefix|].
  rewrite str_take_length.
  split; [lia|]. split; [lia|]. split; [apply str_take_all|].
  apply refresh_gui_data_config.
Qed.

Lemma refresh_truncates_to_max_width_witness :
  let r := refresh_gui_data example_static_names "ups-1" false example_gui in
  exists shown,
    binding (state_after r) "ups-1" "mib_ups_model" = Some (ItemDict 2 None None shown)
    /\ SetText "ups-1" "mib_ups_model" 2 shown ∈ trace r
    /\ shown = "Smart-UPS "
    /\ (exists rest, "Smart-UPS 1500 RM" = shown +:+ rest)
    /\ String.length shown <= 10.
Proof.
  assert (0 <= max_width example_gui)%Z as Hw by (vm_compute; discriminate).
  destruct (refresh_truncates_to_max_width example_static_names example_gui "ups-1" false
    "mib_ups_model" (ItemDict 2 None None "Smart-UPS ") Hw eq_refl (or_introl eq_refl))
    as (shown & Ha & Hb & _ & Hc & Hd & He & _).
  exists shown. repeat split; assumption.
Defined.

(** C3: a pass for a device id that has no entry in the registry raises
    [KeyError] for that id (the specification's UnknownDeviceError) before
    anything is read or written: the registry, with every binding of every
    device, is as it was, and no label has been set. *)
Theorem refresh_unknown_device static_names self uuid skip_static :
  uuid ∉ dict_keys (gc self) ->
  let r := refresh_gui_data static_names uuid skip_static self in
  outcome r = Raise (KeyError uuid)
  /\ state_after r = self
  /\ trace r = []
  /\ forall uuid' item_name,
       binding (state_after r) uuid' item_name = binding self uuid' item_name.
Proof.
  intros H r. apply dict_get_None in H.
  subst r. rewrite (refresh_gui_data_unregistered _ _ _ _ H). auto.
Qed.

Lemma refresh_unknown_device_witness :
  let r := refresh_gui_data example_static_names "ups-9" false example_gui in
  outcome r = Raise (KeyError "ups-9") /\ state_after r = example_gui /\ trace r = [].
Proof.
  assert ("ups-9" ∉ dict_keys (gc example_gui)) as H by compute_done.
  destruct (refresh_unknown_device example_static_names example_gui "ups-9" false H)
    as (Ha & Hb & Hc & _).
  repeat split; assumption.
Defined.

(** C5: a pass with [skip_static] set leaves a field whose name is in the
    static table alone: the data source is not read for it, no label is set
    for it (every label set during the pass is set for a field that is not
    static), and its entry, with the cached value, is the one from before the
    pass. *)
Theorem refresh_skips_static static_names self uuid item_name :
  item_name ∈ static_names ->
  let r := refresh_gui_data static_names uuid true self in
  (DataGet uuid item_name ∉ trace r)
  /\ (forall lbl text, SetText uuid item_name lbl text ∉ trace r)
  /\ (forall uuid' item_name' lbl text,
        SetText uuid' item_name' lbl text ∈ trace r -> item_name' ∉ static_names)
  /\ binding (state_after r) uuid item_name = binding self uuid item_name
  /\ (data <$> binding (state_after r) uuid item_name) = (data <$> binding self uuid item_name).
Proof.
  intros Hstatic r.
  assert (forall e, e ∈ trace r ->
            exists n, (e = DataGet uuid n \/ exists lbl text, e = SetText uuid n lbl text)
                      /\ n ∉ static_names) as Htrace.
  { intros e He. subst r. destruct (dict_get uuid (gc self)) as [items|] eqn:Hitems.
    - destruct (proj1 (refresh_gui_data_trace _ _ _ _ items _ Hitems) He)
        as (n & it & _ & Hn). clear He. rename Hn into He.
      unfold refresh_item, is_skipped in He. simpl in He.
      destruct (decide (n ∈ static_names)) as [Hin|Hout].
      + rewrite bool_decide_true in He by assumption. now apply elem_of_nil in He.
      + rewrite bool_decide_false in He by assumption. exists n. split; [|assumption].
        simpl in He. rewrite !elem_of_cons, elem_of_nil in He. destruct He as [->|[->|[]]]; eauto.
    - rewrite (refresh_gui_data_unregistered _ _ _ _ Hitems) in He.
      now apply elem_of_nil in He. }
  assert (binding (state_after r) uuid item_name = binding self uuid item_name) as Hsame.
  { subst r. destruct (dict_get uuid (gc self)) as [items|] eqn:Hitems.
    - rewrite refresh_gui_data_binding by eauto.
      destruct (binding self uuid item_name) as [it|]; [simpl | reflexivity].
      unfold refresh_item. now rewrite is_skipped_true.
    - now rewrite (refresh_gui_data_unregistered _ _ _ _ Hitems). }
  split; [|split; [|split; [|split]]].
  - intros He. apply Htrace in He as (n & [Heq|(? & ? & Heq)] & Hn); [|discriminate].
    injection Heq as <-. contradiction.
  - intros lbl text He. apply Htrace in He as (n & [Heq|(? & ? & Heq)] & Hn); [discriminate|].
    injection Heq as <- _ _. contradiction.
  - intros uuid' n' lbl text He.
    apply Htrace in He as (n & [Heq|(? & ? & Heq)] & Hn); [discriminate|].
    now injection Heq as _ -> _ _.
  - exact Hsame.
  - now rewrite Hsame.
Qed.

Lemma refresh_skips_static_witness :
  let r := refresh_gui_data example_static_names "ups-1" true example_gui in
  (DataGet "ups-1" "mib_ups_model" ∉ trace r)
  /\ (forall lbl text, SetText "ups-1" "mib_ups_model" lbl text ∉ trace r)
  /\ binding (state_after r) "ups-1" "mib_ups_model"
     = Some (ItemDict 2 None None "Smart-UPS ").
Proof.
  assert ("mib_ups_model" ∈ example_static_names) as H by compute_done.
  destruct (refresh_skips_static example_static_names example_gui "ups-1" "mib_ups_model" H)
    as (Ha & Hb & _ & Hc & _).
  repeat split; assumption.
Defined.

(** ** Refreshing every device of the data source *)

Section refresh_each_facts.
Variable static_names : list string.
Variable skip_static : bool.

Local Abbreviation refresh uuid := (refresh_gui_data static_names uuid skip_static).

Lemma bind_run {A B} (c : M A) (k : A -> M B) self :
  bind c k self
  = match outcome (c self) with
    | Ok a =>
        let r := k a (state_after (c self)) in
        (outcome r, state_after r, trace (c self) ++ trace r)
    | Raise e => (Raise e, state_after (c self), trace (c self))
    end.
Proof.
  unfold bind, outcome, state_after, trace.
  destruct (c self) as [[[a|e] self1] ev]; simpl; [|reflexivity].
  now destruct (k a self1) as [[? ?] ?].
Qed.

Lemma bind_state {A B} (c : M A) (k : A -> M B) self :
  state_after (bind c k self)
  = match outcome (c self) with
    | Ok a => state_after (k a (state_after (c self)))
    | Raise e => state_after (c self)
    end.
Proof.
  rewrite bind_run. now destruct (outcome (c self)).
Qed.

Lemma bind_assoc {A B C} (c : M A) (k : A -> M B) (k' : B -> M C) self :
  bind (bind c k) k' self = bind c (fun a => bind (k a) k') self.
Proof.
  unfold bind. destruct (c self) as [[[a|e] self1] ev]; [|reflexivity].
  destruct (k a self1) as [[[b|e] self2] ev2]; [|reflexivity].
  destruct (k' b self2) as [[? ?] ?]. now rewrite app_assoc.
Qed.

Lemma bind_ext {A B} (c : M A) (k k' : A -> M B) self :
  (forall a self1, k a self1 = k' a self1) -> bind c k self = bind c k' self.
Proof.
  intros H. unfold bind. destruct (c self) as [[[a|e] self1] ev]; [|reflexivity].
  now rewrite H.
Qed.

Lemma refresh_each_cons uuid ids self :
  refresh_each static_names (uuid :: ids) skip_static self
  = bind (refresh uuid) (fun _ => refresh_each static_names ids skip_static) self.
Proof. reflexivity. Qed.

Lemma same_registry_refl self : same_registry self self.
Proof. repeat split. Qed.

Lemma refresh_item_same self self' uuid item_name it :
  data_dict self' = data_dict self -> max_width self' = max_width self ->
  refresh_item static_names self' uuid skip_static item_name it
  = refresh_item static_names self uuid skip_static item_name it.
Proof. intros Hd Hw. unfold refresh_item. now rewrite Hd, Hw. Qed.

Lemma refresh_item_label self uuid item_name it :
  label (fst (refresh_item static_names self uuid skip_static item_name it)) = label it.
Proof. unfold refresh_item. now destruct (is_skipped _ _ _). Qed.

Lemma refresh_item_again self uuid item_name it :
  fst (refresh_item static_names self uuid skip_static item_name
         (fst (refresh_item static_names self uuid skip_static item_name it)))
  = fst (refresh_item static_names self uuid skip_static item_name it).
Proof. unfold refresh_item. now destruct (is_skipped _ _ _). Qed.

Lemma refresh_items_labels self uuid items :
  map (fun entry => (fst entry, label (snd entry)))
      (fst (refresh_items static_names self uuid skip_static items))
  = map (fun entry => (fst entry, label (snd entry))) items.
Proof.
  induction items as [|[n it] rest IH]; [reflexivity|].
  rewrite refresh_items_cons. simpl. now rewrite refresh_item_label, IH.
Qed.

(** The events of a pass depend on the entries only through the field
    names and the labels. *)
Lemma refresh_items_trace_same self self' uuid items items' :
  data_dict self' = data_dict self -> max_width self' = max_width self ->
  map (fun entry => (fst entry, label (snd entry))) items'
  = map (fun entry => (fst entry, label (snd entry))) items ->
  snd (refresh_items static_names self' uuid skip_static items')
  = snd (refresh_items static_names self uuid skip_static items).
Proof.
  intros Hd Hw. revert items'.
  induction items as [|[n it] rest IH]; intros [|[n' it'] rest'] H; try discriminate H.
  - reflexivity.
  - simpl in H. injection H as -> Hl Hrest.
    rewrite !refresh_items_cons. simpl. rewrite (IH _ Hrest). f_equal.
    unfold refresh_item. rewrite Hd, Hw, Hl. now destruct (is_skipped _ _ _).
Qed.

Lemma refresh_same_outcome_trace self self' uuid :
  same_registry self self' ->
  outcome (refresh uuid self') = outcome (refresh uuid self)
  /\ trace (refresh uuid self') = trace (refresh uuid self).
Proof.
  intros (Hd & Hw & Hl). specialize (Hl uuid). unfold labels_of in Hl.
  destruct (dict_get uuid (gc self)) as [items|] eqn:H;
    destruct (dict_get uuid (gc self')) as [items'|] eqn:H'; try discriminate Hl.
  - rewrite (refresh_gui_data_registered _ _ _ _ _ H), (refresh_gui_data_registered _ _ _ _ _ H').
    split; [reflexivity|]. simpl in Hl. injection Hl as Hl.
    now apply refresh_items_trace_same.
  - now rewrite (refresh_gui_data_unregistered _ _ _ _ H), (refresh_gui_data_unregistered _ _ _ _ H').
Qed.

Lemma refresh_same_registry self self' uuid :
  same_registry self self' -> same_registry self (state_after (refresh uuid self')).
Proof.
  intros (Hd & Hw & Hl).
  destruct (refresh_gui_data_config static_names self' uuid skip_static) as [Hd' Hw'].
  split; [congruence|]. split; [congruence|].
  intros u. rewrite <- Hl. unfold labels_of.
  destruct (dict_get uuid (gc self')) as [items'|] eqn:H'.
  - rewrite (refresh_gui_data_registered _ _ _ _ _ H'). unfold state_after. simpl.
    destruct (decide (uuid = u)) as [->|Hne].
    + rewrite dict_get_set_eq, H'. simpl. now rewrite refresh_items_labels.
    + now rewrite dict_get_set_ne.
  - now rewrite (refresh_gui_data_unregistered _ _ _ _ H').
Qed.

Lemma same_registry_keys self self' uuid :
  same_registry self self' -> uuid ∈ dict_keys (gc self) -> uuid ∈ dict_keys (gc self').
Proof.
  intros (_ & _ & Hl) Hin. specialize (Hl uuid). unfold labels_of in Hl.
  apply dict_get_is_Some in Hin as [items Hitems]. rewrite Hitems in Hl.
  apply dict_get_is_Some. destruct (dict_get uuid (gc self')); [eauto | discriminate].
Qed.

Lemma same_registry_not_keys self self' uuid :
  same_registry self self' -> uuid ∉ dict_keys (gc self) -> uuid ∉ dict_keys (gc self').
Proof.
  intros (_ & _ & Hl) Hout. specialize (Hl uuid). unfold labels_of in Hl.
  apply dict_get_None in Hout. rewrite Hout in Hl.
  apply dict_get_None. destruct (dict_get uuid (gc self')); [discriminate | reflexivity].
Qed.

(** The entry of a field after a pass over its device, from any state of
    the registry. *)
Lemma refresh_binding_same self self' uuid item_name :
  same_registry self self' -> uuid ∈ dict_keys (gc self) ->
  binding (state_after (refresh uuid self')) uuid item_name
  = (fun it => fst (refresh_item static_names self uuid skip_static item_name it))
      <$> binding self' uuid item_name.
Proof.
  intros Hsame Hin. pose proof Hsame as (Hd & Hw & _).
  rewrite refresh_gui_data_binding
    by (apply dict_get_is_Some; eapply same_registry_keys; eassumption).
  destruct (binding self' uuid item_name); simpl; [|reflexivity].
  now rewrite (refresh_item_same self self').
Qed.

Lemma refresh_each_app ids ids' self :
  refresh_each static_names (ids ++ ids') skip_static self
  = bind (refresh_each static_names ids skip_static)
         (fun _ => refresh_each static_names ids' skip_static) self.
Proof.
  revert self. induction ids as [|u ids IH]; intros self.
  - simpl. unfold bind, ret. now destruct (refresh_each _ _ _ _) as [[? ?] ?].
  - rewrite <- app_comm_cons, refresh_each_cons.
    rewrite (bind_ext _ _ _ _ (fun _ self1 => IH self1)).
    symmetry. apply (bind_assoc (refresh u)).
Qed.

(** The loop over registered devices: it returns, having issued the events
    of one pass per id, and every entry of a device among the ids is as one
    pass over that device leaves it. *)
Lemma refresh_each_registered ids self self' :
  same_registry self self' ->
  (forall uuid, uuid ∈ ids -> uuid ∈ dict_keys (gc self)) ->
  let r := refresh_each static_names ids skip_static self' in
  outcome r = Ok tt
  /\ same_registry self (state_after r)
  /\ trace r = flat_map (fun uuid => trace (refresh uuid self)) ids
  /\ forall uuid item_name,
       binding (state_after r) uuid item_name
       = if decide (uuid ∈ ids)
         then (fun it => fst (refresh_item static_names self uuid skip_static item_name it))
                <$> binding self' uuid item_name
         else binding self' uuid item_name.
Proof.
  revert self'. induction ids as [|u ids IH]; intros self' Hsame Hreg r.
  - subst r. simpl. repeat split; try apply Hsame.
  - assert (u ∈ dict_keys (gc self)) as Hu by (apply Hreg, list_elem_of_here).
    destruct (refresh_same_outcome_trace self self' u Hsame) as [Ho Ht].
    pose proof (refresh_same_registry self self' u Hsame) as Hsame1.
    pose proof (refresh_binding_same self self' u) as Hbind.
    pose proof (refresh_gui_data_binding_other static_names self' u skip_static) as Hother.
    apply dict_get_is_Some in Hu as Hitems. destruct Hitems as [items Hitems].
    rewrite (refresh_gui_data_registered _ _ _ _ _ Hitems) in Ho.
    change (outcome (refresh u self') = Ok tt) in Ho.
    subst r. rewrite refresh_each_cons, bind_run, Ho.
    set (self1 := state_after (refresh u self')) in *.
    destruct (IH self1 Hsame1 (fun x Hx => Hreg x (list_elem_of_further _ _ _ Hx)))
      as (Hok & Hsame2 & Htr & Hb).
    cbv zeta. unfold outcome at 1, state_after at 1 2, trace at 1. simpl fst. simpl snd.
    split; [assumption|]. split; [assumption|]. split; [simpl; now rewrite Ht, Htr|].
    intros uuid n. rewrite Hb.
    destruct (decide (uuid = u)) as [->|Hne].
    + rewrite (decide_True (P := u ∈ u :: ids)) by apply list_elem_of_here.
      subst self1. rewrite (Hbind n Hsame Hu).
      destruct (decide (u ∈ ids)); [|reflexivity].
      destruct (binding self' u n); simpl; [|reflexivity].
      now rewrite refresh_item_again.
    + subst self1. rewrite (Hother uuid n) by congruence.
      destruct (decide (uuid ∈ ids)) as [Hin|Hout].
      * now rewrite decide_True by (now apply list_elem_of_further).
      * rewrite decide_False; [reflexivity|].
        rewrite elem_of_cons. tauto.
Qed.
End refresh_each_facts.

(** C4 (as the code has it): [all_refresh_gui_data] runs one pass per device
    id the data source enumerates, in that order, whatever the keys of the
    registry are.  While the ids met are registered the passes succeed; with
    every id registered the call returns.  The first id without an entry in the
    registry makes its pass raise [KeyError], which ends the call: the devices
    enumerated before it have been refreshed, every other binding is as it
    was, and the events issued are those of the passes made. *)
Theorem all_refresh_follows_data_source static_names self skip_static done rest :
  uuids (data_dict self) = done ++ rest ->
  (forall uuid, uuid ∈ done -> uuid ∈ dict_keys (gc self)) ->
  (forall uuid, head rest = Some uuid -> uuid ∉ dict_keys (gc self)) ->
  let r := all_refresh_gui_data static_names skip_static self in
  outcome r = match rest with [] => Ok tt | uuid :: _ => Raise (KeyError uuid) end
  /\ trace r
     = flat_map (fun uuid => trace (refresh_gui_data static_names uuid skip_static self)) done
  /\ forall uuid item_name,
       binding (state_after r) uuid item_name
       = if decide (uuid ∈ done)
         then binding (state_after (refresh_gui_data static_names uuid skip_static self))
                uuid item_name
         else binding self uuid item_name.
Proof.
  intros Hids Hdone Hrest r.
  destruct (refresh_each_registered static_names skip_static done self self
              (same_registry_refl self) Hdone) as (Hok & Hsame & Htr & Hb).
  assert (forall uuid item_name,
            (if decide (uuid ∈ done)
             then (fun it => fst (refresh_item static_names self uuid skip_static item_name it))
                    <$> binding self uuid item_name
             else binding self uuid item_name)
            = if decide (uuid ∈ done)
              then binding (state_after (refresh_gui_data static_names uuid skip_static self))
                     uuid item_name
              else binding self uuid item_name) as Hsingle.
  { intros uuid n. destruct (decide (uuid ∈ done)) as [Hin|]; [|reflexivity].
    symmetry. apply refresh_gui_data_binding, dict_get_is_Some, Hdone, Hin. }
  subst r. unfold all_refresh_gui_data.
  rewrite Hids, refresh_each_app, bind_run, Hok. cbv zeta.
  set (self1 := state_after (refresh_each static_names done skip_static self)) in *.
  destruct rest as [|uuid rest].
  - simpl. unfold ret, outcome, state_after, trace. simpl. rewrite app_nil_r.
    split; [reflexivity|]. split; [exact Htr|].
    intros u n. fold (state_after (refresh_each static_names done skip_static self)).
    fold self1. now rewrite Hb, Hsingle.
  - assert (dict_get uuid (gc self1) = None) as Hnone.
    { apply dict_get_None, (same_registry_not_keys self self1 uuid Hsame), Hrest. reflexivity. }
    rewrite refresh_each_cons, bind_run, (refresh_gui_data_unregistered _ _ _ _ Hnone).
    unfold outcome, state_after, trace. simpl. rewrite app_nil_r.
    split; [reflexivity|]. split; [exact Htr|].
    intros u n. fold (state_after (refresh_each static_names done skip_static self)).
    fold self1. now rewrite Hb, Hsingle.
Qed.

Lemma all_refresh_follows_data_source_witness :
  let r := all_refresh_gui_data example_static_names false example_gui_new_device in
  outcome r = Raise (KeyError "ups-2")
  /\ trace r
     = trace (refresh_gui_data example_static_names "ups-1" false example_gui_new_device) ++ []
  /\ binding (state_after r) "ups-1" "mib_battery_capacity" = Some (ItemDict 5 None None "100").
Proof.
  assert (forall uuid, uuid ∈ ["ups-1"] -> uuid ∈ dict_keys (gc example_gui_new_device)) as Hdone.
  { intros uuid Hin. apply list_elem_of_singleton in Hin as ->. compute_done. }
  assert (forall uuid, head ["ups-2"] = Some uuid ->
                       uuid ∉ dict_keys (gc example_gui_new_device)) as Hrest.
  { intros uuid Hhd. injection Hhd as <-. compute_done. }
  destruct (all_refresh_follows_data_source example_static_names example_gui_new_device false
              ["ups-1"] ["ups-2"] eq_refl Hdone Hrest) as (Ha & Hb & Hc).
  split; [exact Ha|]. split; [exact Hb|]. exact (Hc "ups-1" "mib_battery_capacity").
Defined.

(** C4 (as the specification has it) fails: the data source of
    [example_gui_new_device] enumerates the device "ups-2", which has no
    registered bindings, and the call does not complete as a no-op for it but
    raises [KeyError]. *)
Lemma all_refresh_unregistered_counterexample :
  let self := example_gui_new_device in
  "ups-2" ∈ uuids (data_dict self)
  /\ ("ups-2" ∉ dict_keys (gc self))
  /\ outcome (all_refresh_gui_data example_static_names false self) = Raise (KeyError "ups-2")
  /\ outcome (all_refresh_gui_data example_static_names false self) <> Ok tt.
Proof.
  split; [compute_done|]. split; [compute_done|].
  split; [reflexivity | discriminate].
Qed.

(** ** Registering widgets *)

Lemma add_returns uuid name label box box_name self :
  add uuid name label box box_name self
  = (Ok tt,
     with_gc self
       (dict_set uuid
          (match dict_get uuid (gc self) with
           | Some items => dict_set name (ItemDict label box box_name "---") items
           | None => [(name, ItemDict label box box_name "---")]
           end) (gc self)),
     []).
Proof.
  unfold add, dict_in. now destruct (dict_get uuid (gc self)).
Qed.

Lemma add_binding_eq uuid name label box box_name self :
  binding (state_after (add uuid name label box box_name self)) uuid name
  = Some (ItemDict label box box_name "---").
Proof.
  rewrite add_returns. unfold binding, state_after. simpl. rewrite dict_get_set_eq.
  destruct (dict_get uuid (gc self)); [apply dict_get_set_eq|].
  simpl. now rewrite decide_True.
Qed.

Lemma add_binding_ne uuid name label box box_name self uuid' name' :
  uuid' <> uuid \/ name' <> name ->
  binding (state_after (add uuid name label box box_name self)) uuid' name'
  = binding self uuid' name'.
Proof.
  intros Hne. rewrite add_returns. unfold binding, state_after in *. simpl.
  destruct (decide (uuid = uuid')) as [<-|Hu].
  - assert (name <> name') as Hn by (destruct Hne; congruence).
    rewrite dict_get_set_eq. destruct (dict_get uuid (gc self)) as [items|].
    + now apply dict_get_set_ne.
    + simpl. now rewrite decide_False.
  - now rewrite dict_get_set_ne.
Qed.

Lemma add_fields_eq uuid name label box box_name self :
  fields_of (state_after (add uuid name label box box_name self)) uuid
  = Some (match fields_of self uuid with
          | Some names => if decide (name ∈ names) then names else names ++ [name]
          | None => [name]
          end).
Proof.
  rewrite add_returns. unfold fields_of, state_after. simpl. rewrite dict_get_set_eq. simpl.
  destruct (dict_get uuid (gc self)) as [items|]; simpl; [|reflexivity].
  destruct (decide (name ∈ dict_keys items)).
  - now rewrite dict_keys_set_old.
  - now rewrite dict_keys_set_new.
Qed.

Lemma add_fields_ne uuid name label box box_name self uuid' :
  uuid <> uuid' ->
  fields_of (state_after (add uuid name label box box_name self)) uuid' = fields_of self uuid'.
Proof.
  intros Hne. rewrite add_returns. unfold fields_of, state_after. simpl.
  now rewrite dict_get_set_ne.
Qed.

Lemma added_snoc cs c uuid name :
  added (cs ++ [c]) uuid name
  <-> added cs uuid name \/ exists label box box_name, c = CallAdd uuid name label box box_name.
Proof.
  unfold added. split.
  - intros (l & b & bn & H). apply elem_of_app in H as [H|H]; [left; eauto|].
    apply list_elem_of_singleton in H. right; eauto.
  - intros [(l & b & bn & H)|(l & b & bn & ->)]; exists l, b, bn; apply elem_of_app.
    + now left.
    + right. apply list_elem_of_here.
Qed.

Lemma classic_call (c : call) :
  (exists uuid name label box box_name, c = CallAdd uuid name label box box_name)
  \/ (forall uuid name label box box_name, c <> CallAdd uuid name label box box_name).
Proof.
  destruct c; [left; eauto 6 | right; discriminate ..].
Qed.

Section history_facts.
Variable static_names : list string.

Lemma refresh_each_keeps_registry skip_static ids self self' :
  same_registry self self' ->
  let self'' := state_after (refresh_each static_names ids skip_static self') in
  same_registry self self'' /\ dict_keys (gc self'') = dict_keys (gc self').
Proof.
  revert self'. induction ids as [|u ids IH]; intros self' Hsame; [now split|].
  cbv zeta. rewrite refresh_each_cons, bind_state.
  pose proof (refresh_same_registry static_names skip_static self self' u Hsame) as Hsame1.
  pose proof (refresh_gui_data_keys static_names self' u skip_static) as Hkeys.
  destruct (outcome (refresh_gui_data static_names u skip_static self')) as [[]|e].
  - destruct (IH _ Hsame1) as [H1 H2]. split; [exact H1 | congruence].
  - now split.
Qed.

Lemma same_registry_fields self self' uuid :
  same_registry self self' -> fields_of self' uuid = fields_of self uuid.
Proof.
  intros (_ & _ & Hl). specialize (Hl uuid). unfold labels_of, fields_of in *.
  destruct (dict_get uuid (gc self)) as [items|], (dict_get uuid (gc self')) as [items'|];
    try discriminate Hl; [|reflexivity].
  simpl in *. injection Hl as Hl. f_equal. unfold dict_keys.
  apply (f_equal (map fst)) in Hl. rewrite !map_map in Hl. exact Hl.
Qed.

(** Only [add] changes which devices and fields a registry holds. *)
Lemma run_call_keeps_fields c self :
  (forall uuid name label box box_name, c <> CallAdd uuid name label box box_name) ->
  let self' := state_after (run_call static_names c self) in
  dict_keys (gc self') = dict_keys (gc self)
  /\ forall uuid, fields_of self' uuid = fields_of self uuid.
Proof.
  intros Hc. destruct c as [u n l b bn|u skip|skip|d]; simpl.
  - now destruct (Hc u n l b bn).
  - split; [apply refresh_gui_data_keys|]. intros uuid.
    apply same_registry_fields, refresh_same_registry, same_registry_refl.
  - unfold all_refresh_gui_data.
    destruct (refresh_each_keeps_registry skip (uuids (data_dict self)) self self
                (same_registry_refl self)) as [H1 H2].
    split; [exact H2|]. intros uuid. now apply same_registry_fields.
  - now split.
Qed.

Lemma run_call_matches c self cs :
  registry_matches self cs ->
  registry_matches (state_after (run_call static_names c self)) (cs ++ [c]).
Proof.
  intros (Hnd & Hdev & Hfld).
  destruct (classic_call c) as [(u & n & l & b & bn & ->)|Hc].
  - simpl. split; [|split].
    + rewrite add_returns. unfold state_after. simpl. now apply dict_keys_set_NoDup.
    + intros uuid. rewrite add_returns. unfold state_after. simpl.
      rewrite dict_keys_set_elem, Hdev. split.
      * intros [->|[name H]]; [exists n | exists name]; apply added_snoc; [right; eauto | now left].
      * intros [name H]. apply added_snoc in H as [H|(? & ? & ? & H)]; [right; eauto|].
        left. congruence.
    + intros uuid names. destruct (decide (u = uuid)) as [<-|Hne].
      * rewrite add_fields_eq. intros H. injection H as <-.
        destruct (fields_of self u) as [names0|] eqn:Hf.
        -- destruct (Hfld u names0 Hf) as [Hnd0 Hin0].
           destruct (decide (n ∈ names0)) as [Hn|Hn].
           ++ split; [assumption|]. intros name. rewrite added_snoc, Hin0. split; [tauto|].
              intros [H|(? & ? & ? & H)]; [assumption|].
              assert (name = n) as -> by congruence. now apply Hin0.
           ++ split.
              ** apply NoDup_app. split; [assumption|]. split; [|apply NoDup_singleton].
                 intros x Hx Hx'. apply list_elem_of_singleton in Hx'. congruence.
              ** intros name. rewrite elem_of_app, list_elem_of_singleton, added_snoc, Hin0.
                 split; [intros [H| ->]; [tauto | right; eauto]|].
                 intros [H|(? & ? & ? & H)]; [tauto|]. right. congruence.
        -- split; [apply NoDup_singleton|].
           intros name. rewrite list_elem_of_singleton, added_snoc. split.
           ++ intros ->. right; eauto.
           ++ intros [H|(? & ? & ? & H)]; [|congruence].
              exfalso. assert (u ∈ dict_keys (gc self)) as Hu by (apply Hdev; eauto).
              apply dict_get_is_Some in Hu as [items Hitems].
              unfold fields_of in Hf. now rewrite Hitems in Hf.
      * rewrite add_fields_ne by assumption. intros H.
        destruct (Hfld uuid names H) as [Hnd0 Hin0]. split; [assumption|].
        intros name. rewrite added_snoc, Hin0. split; [tauto|].
        intros [H'|(? & ? & ? & H')]; [assumption | congruence].
  - destruct (run_call_keeps_fields c self Hc) as [Hk Hf].
    assert (forall uuid name, added (cs ++ [c]) uuid name <-> added cs uuid name) as Hadded.
    { intros uuid name. rewrite added_snoc. split; [|tauto].
      intros [H|(l & b & bn & H)]; [assumption | now destruct (Hc _ _ _ _ _ H)]. }
    split; [|split].
    + now rewrite Hk.
    + intros uuid. rewrite Hk, Hdev. now setoid_rewrite Hadded.
    + intros uuid names. rewrite Hf. intros H. destruct (Hfld uuid names H) as [H1 H2].
      split; [assumption|]. intros name. now rewrite Hadded.
Qed.

Lemma run_calls_matches cs self prev :
  registry_matches self prev ->
  registry_matches (run_calls static_names cs self) (prev ++ cs).
Proof.
  revert self prev. induction cs as [|c cs IH]; intros self prev H; simpl.
  - now rewrite app_nil_r.
  - replace (prev ++ c :: cs) with ((prev ++ [c]) ++ cs) by now rewrite <- app_assoc.
    apply IH, run_call_matches, H.
Qed.

Lemma init_matches data_dict max_width :
  registry_matches (GuiComp_init data_dict max_width) [].
Proof.
  split; [apply NoDup_nil_2|]. split.
  - intros uuid. simpl. split; [intros H; now apply elem_of_nil in H|].
    intros (n & l & b & bn & H). now apply elem_of_nil in H.
  - intros uuid names H. discriminate H.
Qed.
End history_facts.

(** C6: [add] never raises; whatever the registry held, the binding of the
    key it is called for is afterwards the one of this call, its cached value
    the placeholder ["---"], so that of two calls for one key the later one
    wins, and every other binding is as it was.  In a registry built by any
    sequence of calls no device and no field of a device occurs twice, and
    the fields of each device present are exactly the names passed to [add]
    for that device. *)
Theorem add_registers_binding static_names :
  (forall self uuid name label box box_name,
     let r := add uuid name label box box_name self in
     outcome r = Ok tt
     /\ binding (state_after r) uuid name = Some (ItemDict label box box_name "---")
     /\ (forall label' box' box_name',
          binding (state_after (add uuid name label' box' box_name' (state_after r))) uuid name
          = Some (ItemDict label' box' box_name' "---"))
     /\ (forall uuid' name', uuid' <> uuid \/ name' <> name ->
          binding (state_after r) uuid' name' = binding self uuid' name'))
  /\ (forall cs data_dict max_width,
       let self := run_calls static_names cs (GuiComp_init data_dict max_width) in
       NoDup (dict_keys (gc self))
       /\ (forall uuid, uuid ∈ dict_keys (gc self) <-> exists name, added cs uuid name)
       /\ (forall uuid names, fields_of self uuid = Some names ->
             NoDup names /\ forall name, name ∈ names <-> added cs uuid name)).
Proof.
  split.
  - intros self uuid name label box box_name r. subst r.
    split; [now rewrite add_returns|]. split; [apply add_binding_eq|].
    split; [intros; apply add_binding_eq|]. intros. now apply add_binding_ne.
  - intros cs d w. exact (run_calls_matches static_names cs _ [] (init_matches d w)).
Qed.

Lemma add_registers_binding_witness :
  let self := state_after (add "ups-1" "mib_output_load" 44 None None example_gui) in
  binding self "ups-1" "mib_output_load" = Some (ItemDict 44 None None "---")
  /\ binding self "ups-1" "mib_ups_model" = binding example_gui "ups-1" "mib_ups_model"
  /\ NoDup (dict_keys (gc (run_calls example_static_names
                            [CallAdd "ups-1" "mib_ups_name" 1 None None;
                             CallRefreshAll false;
                             CallAdd "ups-1" "mib_ups_name" 2 None None]
                            (GuiComp_init example_data 10)))).
Proof.
  destruct (add_registers_binding example_static_names) as [Hadd Hruns].
  destruct (Hadd example_gui "ups-1" "mib_output_load" 44 None None) as (_ & Ha & _ & Hb).
  split; [exact Ha|]. split.
  - apply Hb. right. discriminate.
  - apply (Hruns [CallAdd "ups-1" "mib_ups_name" 1 None None;
                  CallRefreshAll false;
                  CallAdd "ups-1" "mib_ups_name" 2 None None] example_data 10%Z).
Defined.

(** ** Colours *)

Lemma hex_digit_not_hash c v : hex_digit c = Some v -> c <> "#"%char.
Proof. intros H ->. vm_compute in H. discriminate H. Qed.

Lemma hex_digit_is_hex c v : hex_digit c = Some v -> is_hex_digit c = true.
Proof. intros H. unfold is_hex_digit. now rewrite H. Qed.

Lemma py_int16_pair c1 c2 v1 v2 :
  hex_digit c1 = Some v1 -> hex_digit c2 = Some v2 ->
  py_int16 (String c1 (String c2 "")) = Ok (16 * v1 + v2)%Z.
Proof.
  intros H1 H2. unfold py_int16. simpl. rewrite H1, H2. f_equal; lia.
Qed.

(** Six hexadecimal digits, with or without a [#] in front, are converted
    channel by channel once the pattern has let them through. *)
Lemma hex_to_rgba_digits pat c1 c2 c3 c4 c5 c6 v1 v2 v3 v4 v5 v6 :
  hex_digit c1 = Some v1 -> hex_digit c2 = Some v2 -> hex_digit c3 = Some v3 ->
  hex_digit c4 = Some v4 -> hex_digit c5 = Some v5 -> hex_digit c6 = Some v6 ->
  let digits := String c1 (String c2 (String c3 (String c4 (String c5 (String c6 ""))))) in
  let colour : result rgba :=
    Ok (PyFloatNum (div_255 (16 * v1 + v2)), PyFloatNum (div_255 (16 * v3 + v4)),
        PyFloatNum (div_255 (16 * v5 + v6)), PyIntNum 1) in
  (pat digits = true -> hex_to_rgba pat digits = colour)
  /\ (pat (String "#" digits) = true -> hex_to_rgba pat (String "#" digits) = colour).
Proof.
  intros H1 H2 H3 H4 H5 H6 digits colour.
  pose proof (hex_digit_not_hash _ _ H1) as Hc1.
  assert (str_lstrip "#" digits = digits) as Hstrip.
  { unfold digits. simpl. now rewrite bool_decide_false. }
  assert (forall value, pat value = true -> str_lstrip "#" value = digits ->
                        hex_to_rgba pat value = colour) as Hconv.
  { intros value Hmatch Hvalue. unfold hex_to_rgba. rewrite Hmatch, Hvalue.
    change (pair_at digits 0) with (String c1 (String c2 "")).
    change (pair_at digits 2) with (String c3 (String c4 "")).
    change (pair_at digits 4) with (String c5 (String c6 "")).
    now rewrite (py_int16_pair _ _ _ _ H1 H2), (py_int16_pair _ _ _ _ H3 H4),
      (py_int16_pair _ _ _ _ H5 H6). }
  split; intros Hpat; apply Hconv; assumption.
Qed.

Lemma HEXRGB_fullmatch_digits c1 c2 c3 c4 c5 c6 v1 v2 v3 v4 v5 v6 :
  hex_digit c1 = Some v1 -> hex_digit c2 = Some v2 -> hex_digit c3 = Some v3 ->
  hex_digit c4 = Some v4 -> hex_digit c5 = Some v5 -> hex_digit c6 = Some v6 ->
  let digits := String c1 (String c2 (String c3 (String c4 (String c5 (String c6 ""))))) in
  HEXRGB_fullmatch digits = true /\ HEXRGB_fullmatch (String "#" digits) = true.
Proof.
  intros H1 H2 H3 H4 H5 H6 digits.
  assert (six_hex_digits digits = true) as Hsix.
  { unfold six_hex_digits, digits. simpl.
    now rewrite (hex_digit_is_hex _ _ H1), (hex_digit_is_hex _ _ H2), (hex_digit_is_hex _ _ H3),
      (hex_digit_is_hex _ _ H4), (hex_digit_is_hex _ _ H5), (hex_digit_is_hex _ _ H6). }
  split; [|exact Hsix].
  unfold HEXRGB_fullmatch, strip_hash, digits.
  rewrite bool_decide_false by exact (hex_digit_not_hash _ _ H1). exact Hsix.
Qed.

(** C7: [hex_to_rgba] turns six hexadecimal digits, with or without a
    leading [#], into the three channels divided by [255.0] and the alpha [1]
    (which is [1.0] in value): ["#FFFFFF"] gives [(1.0, 1.0, 1.0, 1.0)] and
    ["000000"] gives [(0.0, 0.0, 0.0, 1.0)].  A text the pattern does not
    match, and a text that is not six characters long once its leading [#]s
    are stripped, raise [ValueError] with the message for an invalid hex
    colour format (the specification's InvalidColorFormatError); with the
    accepted pattern that is every text which, without its optional leading
    [#], is not exactly six hexadecimal digits, ["#ZZZZZZ"] and ["#FFF"]
    among them. *)
Theorem hex_to_rgba_converts :
  (forall c1 c2 c3 c4 c5 c6 v1 v2 v3 v4 v5 v6,
     hex_digit c1 = Some v1 -> hex_digit c2 = Some v2 -> hex_digit c3 = Some v3 ->
     hex_digit c4 = Some v4 -> hex_digit c5 = Some v5 -> hex_digit c6 = Some v6 ->
     let digits := String c1 (String c2 (String c3 (String c4 (String c5 (String c6 ""))))) in
     let colour : result rgba :=
       Ok (PyFloatNum (div_255 (16 * v1 + v2)), PyFloatNum (div_255 (16 * v3 + v4)),
           PyFloatNum (div_255 (16 * v5 + v6)), PyIntNum 1) in
     hex_to_rgba HEXRGB_fullmatch digits = colour
     /\ hex_to_rgba HEXRGB_fullmatch (String "#" digits) = colour)
  /\ hex_to_rgba HEXRGB_fullmatch "#FFFFFF"
     = Ok (PyFloatNum 1, PyFloatNum 1, PyFloatNum 1, PyIntNum 1)
  /\ hex_to_rgba HEXRGB_fullmatch "000000"
     = Ok (PyFloatNum 0, PyFloatNum 0, PyFloatNum 0, PyIntNum 1)
  /\ rgba_eqb (PyFloatNum 1, PyFloatNum 1, PyFloatNum 1, PyIntNum 1)
              (PyFloatNum 1, PyFloatNum 1, PyFloatNum 1, PyFloatNum 1) = true
  /\ rgba_eqb (PyFloatNum 0, PyFloatNum 0, PyFloatNum 0, PyIntNum 1)
              (PyFloatNum 0, PyFloatNum 0, PyFloatNum 0, PyFloatNum 1) = true
  /\ (forall pat value, pat value = false ->
                        hex_to_rgba pat value = Raise (invalid_hex_format value))
  /\ (forall pat value, pat value = true -> String.length (str_lstrip "#" value) <> 6 ->
                        hex_to_rgba pat value = Raise (invalid_hex_format (str_lstrip "#" value)))
  /\ (forall value, six_hex_digits (strip_hash value) = false ->
                    hex_to_rgba HEXRGB_fullmatch value = Raise (invalid_hex_format value))
  /\ (forall value colour, hex_to_rgba HEXRGB_fullmatch value = Ok colour ->
                           six_hex_digits (strip_hash value) = true
                           /\ snd colour = PyIntNum 1
                           /\ pynum_eqb (snd colour) (PyFloatNum 1) = true)
  /\ hex_to_rgba HEXRGB_fullmatch "#ZZZZZZ" = Raise (invalid_hex_format "#ZZZZZZ")
  /\ hex_to_rgba HEXRGB_fullmatch "#FFF" = Raise (invalid_hex_format "#FFF").
Proof.
  assert (forall pat value, pat value = false ->
                            hex_to_rgba pat value = Raise (invalid_hex_format value)) as Hreject.
  { intros pat value H. unfold hex_to_rgba. now rewrite H. }
  split.
  { intros c1 c2 c3 c4 c5 c6 v1 v2 v3 v4 v5 v6 H1 H2 H3 H4 H5 H6 digits colour.
    destruct (HEXRGB_fullmatch_digits _ _ _ _ _ _ _ _ _ _ _ _ H1 H2 H3 H4 H5 H6) as [Ha Hb].
    destruct (hex_to_rgba_digits HEXRGB_fullmatch _ _ _ _ _ _ _ _ _ _ _ _ H1 H2 H3 H4 H5 H6)
      as [Hc Hd].
    split; [exact (Hc Ha) | exact (Hd Hb)]. }
  split; [reflexivity|]. split; [reflexivity|]. split; [reflexivity|]. split; [reflexivity|].
  split; [exact Hreject|].
  split; [|split; [|split; [|split; reflexivity]]].
  - intros pat value Hpat Hlen. unfold hex_to_rgba. rewrite Hpat. simpl.
    apply Nat.eqb_neq in Hlen. now rewrite Hlen.
  - intros value H. now apply Hreject.
  - intros value colour. unfold hex_to_rgba, HEXRGB_fullmatch.
    destruct (six_hex_digits (strip_hash value)); [|discriminate]. simpl.
    destruct (negb _); [discriminate|].
    destruct (py_int16 _); [|discriminate].
    destruct (py_int16 _); [|discriminate].
    destruct (py_int16 _); [|discriminate].
    intros H. injection H as <-. repeat split.
Qed.

Lemma hex_to_rgba_converts_witness :
  hex_to_rgba HEXRGB_fullmatch "#80808d"
  = Ok (PyFloatNum (div_255 128), PyFloatNum (div_255 128), PyFloatNum (div_255 141), PyIntNum 1)
  /\ hex_to_rgba HEXRGB_fullmatch "#12345" = Raise (invalid_hex_format "#12345")
  /\ hex_to_rgba HEXRGB_fullmatch "##80808d" = Raise (invalid_hex_format "##80808d").
Proof.
  destruct hex_to_rgba_converts as (Hconv & _ & _ & _ & _ & Hreject & _ & Hfail & _).
  split; [|split].
  - exact (proj2 (Hconv "8" "0" "8" "0" "8" "d" 8 0 8 0 8 13
                    eq_refl eq_refl eq_refl eq_refl eq_refl eq_refl)%char%Z).
  - exact (Hfail "#12345" eq_refl).
  - exact (Hreject HEXRGB_fullmatch "##80808d" eq_refl).
Defined.

Lemma colors_keys_lowercase key : key ∈ dict_keys _colors -> str_lower key = key.
Proof.
  intros H. unfold dict_keys, _colors in H. simpl in H.
  repeat (apply elem_of_cons in H as [->|H]; [reflexivity|]).
  now apply elem_of_nil in H.
Qed.

Lemma color_name_unknown pat name :
  name ∉ dict_keys _colors ->
  color_name_to_hex name = Raise (invalid_color_name name)
  /\ color_name_to_rgba pat name = Raise (invalid_color_name name).
Proof.
  intros H. apply dict_get_None in H.
  unfold color_name_to_hex, color_name_to_rgba, dict_in. now rewrite H.
Qed.

(** The accepted pattern matches every hex code of the palette. *)
Lemma HEXRGB_fullmatch_palette name hex :
  dict_get name _colors = Some hex -> HEXRGB_fullmatch hex = true.
Proof.
  intros H. apply dict_get_Some_elem in H. unfold _colors in H.
  repeat (apply elem_of_cons in H as [H|H]; [injection H as -> ->; reflexivity|]).
  now apply elem_of_nil in H.
Qed.

(** For a key of the palette only the verdict of the pattern on the key's
    hex code matters. *)
Lemma color_name_to_rgba_pattern pat name :
  (forall key hex, dict_get key _colors = Some hex -> pat hex = true) ->
  color_name_to_rgba pat name = color_name_to_rgba HEXRGB_fullmatch name.
Proof.
  intros Hpat. unfold color_name_to_rgba, colors_getitem.
  destruct (dict_get name _colors) as [hex|] eqn:Hname; [|reflexivity].
  destruct (negb _); [reflexivity|].
  unfold hex_to_rgba. now rewrite (Hpat _ _ Hname), (HEXRGB_fullmatch_palette _ _ Hname).
Qed.

(** C8: [color_name_to_hex] and [color_name_to_rgba] succeed exactly on the
    keys of the palette: for a key the first returns the palette's hex code
    and the second a tuple of three channels between [0.0] and [1.0] with alpha
    [1]; for every other text, a key written in another case included, both
    raise [ValueError] with the message for an invalid colour name (the
    specification's UnknownColorError).  This holds for any pattern [HEXRGB]
    that matches the hex codes of the palette. *)
Theorem color_names_resolve pat name :
  (forall key hex, dict_get key _colors = Some hex -> pat hex = true) ->
  (name ∈ dict_keys _colors ->
     exists hex r g b,
       dict_get name _colors = Some hex
       /\ color_name_to_hex name = Ok hex
       /\ color_name_to_rgba pat name = Ok (PyFloatNum r, PyFloatNum g, PyFloatNum b, PyIntNum 1)
       /\ in_unit_interval (PyFloatNum r) = true
       /\ in_unit_interval (PyFloatNum g) = true
       /\ in_unit_interval (PyFloatNum b) = true
       /\ pynum_eqb (PyIntNum 1) (PyFloatNum 1) = true)
  /\ (name ∉ dict_keys _colors ->
        color_name_to_hex name = Raise (invalid_color_name name)
        /\ color_name_to_rgba pat name = Raise (invalid_color_name name))
  /\ (forall key, key ∈ dict_keys _colors -> name <> key -> str_lower name = str_lower key ->
        color_name_to_hex name = Raise (invalid_color_name name)
        /\ color_name_to_rgba pat name = Raise (invalid_color_name name)).
Proof.
  intros Hpat. split; [|split].
  - intros H. rewrite (color_name_to_rgba_pattern pat name Hpat).
    unfold dict_keys, _colors in H. simpl in H.
    repeat (apply elem_of_cons in H as [->|H];
            [do 4 eexists; repeat split; vm_compute; reflexivity|]).
    now apply elem_of_nil in H.
  - apply color_name_unknown.
  - intros key Hkey Hne Hlower. apply color_name_unknown. intros Hname.
    apply colors_keys_lowercase in Hkey, Hname. congruence.
Qed.

Lemma color_names_resolve_witness :
  (exists hex r g b,
     color_name_to_hex "slate_md" = Ok hex
     /\ color_name_to_rgba HEXRGB_fullmatch "slate_md"
        = Ok (PyFloatNum r, PyFloatNum g, PyFloatNum b, PyIntNum 1)
     /\ in_unit_interval (PyFloatNum r) = true)
  /\ color_name_to_hex "Slate_MD" = Raise (invalid_color_name "Slate_MD")
  /\ color_name_to_rgba HEXRGB_fullmatch "magenta" = Raise (invalid_color_name "magenta").
Proof.
  assert ("slate_md" ∈ dict_keys _colors) as Hkey by compute_done.
  assert ("magenta" ∉ dict_keys _colors) as Hout by compute_done.
  split; [|split].
  - destruct (proj1 (color_names_resolve HEXRGB_fullmatch "slate_md" HEXRGB_fullmatch_palette)
                Hkey) as (hex & r & g & b & _ & Ha & Hb & Hc & _).
    exists hex, r, g, b. repeat split; assumption.
  - apply (proj2 (proj2 (color_names_resolve HEXRGB_fullmatch "Slate_MD"
                           HEXRGB_fullmatch_palette)) "slate_md" Hkey).
    + discriminate.
    + reflexivity.
  - apply (proj1 (proj2 (color_names_resolve HEXRGB_fullmatch "magenta"
                           HEXRGB_fullmatch_palette)) Hout).
Defined.

(** ** The default style sheet *)

(** C9 (as the code has it): the default style sheet is the same at every
    call and on every screen: one rule per region of the table, each binding
    the region to the hex codes the palette gives for its colours, in the
    order of the table, followed by one more rule, for [entry:selected] with
    background [yellow] and text [white]; 26 rules, no region twice, and
    nothing else. *)
Theorem set_style_default_rules :
  exists css,
    css_list None = Ok css
    /\ map Some css = map rule_css (spec_style_table ++ [entry_selected_rule])
    /\ NoDup (map (fun r => selector_css (region r)) (spec_style_table ++ [entry_selected_rule]))
    /\ length css = 26
    /\ (forall scr : screen,
          set_style None scr
          = (Ok tt, scr ++ map (fun item => (item, STYLE_PROVIDER_PRIORITY_APPLICATION)) css))
    /\ (forall scr : screen,
          set_style None (snd (set_style None scr))
          = (Ok tt, (scr ++ map (fun item => (item, STYLE_PROVIDER_PRIORITY_APPLICATION)) css)
                      ++ map (fun item => (item, STYLE_PROVIDER_PRIORITY_APPLICATION)) css)).
Proof.
  destruct (css_list None) as [css|e] eqn:Hcss; [|vm_compute in Hcss; discriminate Hcss].
  exists css.
  assert (forall scr : screen,
            set_style None scr
            = (Ok tt, scr ++ map (fun item => (item, STYLE_PROVIDER_PRIORITY_APPLICATION)) css))
    as Hset by (intros scr; unfold set_style; now rewrite Hcss).
  split; [reflexivity|]. split; [|split; [|split; [|split]]].
  - vm_compute in Hcss. injection Hcss as <-. vm_compute. reflexivity.
  - vm_compute. compute_done.
  - vm_compute in Hcss. injection Hcss as <-. reflexivity.
  - exact Hset.
  - intros scr. now rewrite !Hset.
Qed.

(** C9 (as the specification has it) fails: the style sheet holds a rule
    for [entry:selected], which is none of the rules of the table, so it has
    26 rules where the table has 25. *)
Lemma set_style_extra_rule_counterexample :
  exists css,
    css_list None = Ok css
    /\ "entry:selected { background-image: image(#C9A100); color: #FFFFFF; }" ∈ css
    /\ (Some "entry:selected { background-image: image(#C9A100); color: #FFFFFF; }"
          ∉ map rule_css spec_style_table)
    /\ map Some css <> map rule_css spec_style_table
    /\ length css = 26 /\ length spec_style_table = 25.
Proof.
  eexists. split; [vm_compute; reflexivity|].
  split; [compute_done|]. split; [compute_done|].
  split; [|split; reflexivity].
  intros H. apply (f_equal (@length _)) in H. vm_compute in H. discriminate H.
Qed.

(** ** Slices with a negative stop

    [max_width] is a Python [int]; a negative one would make the slice
    count from the end of the text instead of limiting its length. *)
Lemma py_slice_to_negative_stop :
  py_slice_to "abcdef" (-2) = "abcd" /\ py_slice_to "abcdef" (-9) = "".
Proof. split; reflexivity. Qed.

(** * Further properties of the module *)

(** ** Passes: what they touch and what they leave *)

Lemma dict_set_set {V} k (v v' : V) d : dict_set k v (dict_set k v' d) = dict_set k v d.
Proof.
  induction d as [|[k0 v0] d IH]; simpl.
  - now rewrite decide_True.
  - destruct (decide (k0 = k)) as [->|Hne]; simpl.
    + now rewrite decide_True.
    + rewrite decide_False by assumption. now rewrite IH.
Qed.

Lemma refresh_items_same static_names skip_static self self' uuid items :
  data_dict self' = data_dict self -> max_width self' = max_width self ->
  refresh_items static_names self' uuid skip_static items
  = refresh_items static_names self uuid skip_static items.
Proof.
  intros Hd Hw. induction items as [|[n it] rest IH]; [reflexivity|].
  rewrite !refresh_items_cons, IH.
  now rewrite (refresh_item_same static_names skip_static self self').
Qed.

Lemma set_data_data it : set_data it (data it) = it.
Proof. now destruct it. Qed.

Lemma only_data_differs_refl self : only_data_differs self self.
Proof.
  repeat split. intros uuid item_name.
  destruct (binding self uuid item_name) as [it|]; [|reflexivity].
  exists (data it). now rewrite set_data_data.
Qed.

Lemma only_data_differs_trans self1 self2 self3 :
  only_data_differs self1 self2 -> only_data_differs self2 self3 ->
  only_data_differs self1 self3.
Proof.
  intros (Hd & Hw & Hk & Hf & Hb) (Hd' & Hw' & Hk' & Hf' & Hb').
  split; [congruence|]. split; [congruence|]. split; [congruence|].
  split; [intros uuid; now rewrite Hf', Hf|].
  intros uuid item_name. specialize (Hb uuid item_name). specialize (Hb' uuid item_name).
  destruct (binding self1 uuid item_name) as [it|].
  - destruct Hb as [text Hb]. rewrite Hb in Hb'. destruct Hb' as [text' Hb'].
    exists text'. now rewrite Hb'.
  - now rewrite Hb in Hb'.
Qed.

Lemma refresh_only_data_differs static_names self uuid skip_static :
  only_data_differs self (state_after (refresh_gui_data static_names uuid skip_static self)).
Proof.
  destruct (refresh_gui_data_config static_names self uuid skip_static) as [Hd Hw].
  split; [exact Hd|]. split; [exact Hw|].
  split; [apply refresh_gui_data_keys|].
  split.
  { intros u. apply (same_registry_fields self), refresh_same_registry, same_registry_refl. }
  intros u n. destruct (decide (uuid = u)) as [<-|Hne].
  - destruct (dict_get uuid (gc self)) as [items|] eqn:Hitems.
    + rewrite refresh_gui_data_binding by eauto.
      destruct (binding self uuid n) as [it|]; [|reflexivity]. simpl.
      unfold refresh_item. destruct (is_skipped _ _ _); simpl; eauto.
      exists (data it). now rewrite set_data_data.
    + rewrite (refresh_gui_data_unregistered _ _ _ _ Hitems).
      apply (only_data_differs_refl self).
  - rewrite refresh_gui_data_binding_other by assumption.
    apply (only_data_differs_refl self).
Qed.

Lemma refresh_each_only_data_differs static_names skip_static ids self :
  only_data_differs self (state_after (refresh_each static_names ids skip_static self)).
Proof.
  revert self. induction ids as [|u ids IH]; intros self.
  - apply only_data_differs_refl.
  - rewrite refresh_each_cons, bind_state.
    pose proof (refresh_only_data_differs static_names self u skip_static) as Hone.
    destruct (outcome (refresh_gui_data static_names u skip_static self)); [|exact Hone].
    eapply only_data_differs_trans; [exact Hone | apply IH].
Qed.

(** X1: a pass over a device, and a pass over all devices, change nothing
    but cached values: the data source and the width are as before, no device
    and no field is added, removed or moved, and every entry keeps its label,
    its box and its box name. *)
Theorem refresh_changes_only_cached_values static_names self skip_static :
  (forall uuid,
     only_data_differs self (state_after (refresh_gui_data static_names uuid skip_static self)))
  /\ only_data_differs self (state_after (all_refresh_gui_data static_names skip_static self)).
Proof.
  split.
  - intros uuid. apply refresh_only_data_differs.
  - apply refresh_each_only_data_differs.
Qed.

(** X2: a second pass over a device, the data source unchanged, finds
    nothing to change: it ends as the first did, issues the same events and
    leaves the registry as the first pass left it. *)
Theorem refresh_twice_same static_names self uuid skip_static :
  let r1 := refresh_gui_data static_names uuid skip_static self in
  let r2 := refresh_gui_data static_names uuid skip_static (state_after r1) in
  outcome r2 = outcome r1 /\ state_after r2 = state_after r1 /\ trace r2 = trace r1.
Proof.
  cbv zeta. destruct (dict_get uuid (gc self)) as [items|] eqn:Hitems.
  - rewrite (refresh_gui_data_registered _ _ _ _ _ Hitems).
    set (items' := fst (refresh_items static_names self uuid skip_static items)).
    set (ev := snd (refresh_items static_names self uuid skip_static items)).
    set (self1 := with_gc self (dict_set uuid items' (gc self))).
    change (state_after (Ok tt, self1, ev)) with self1.
    assert (dict_get uuid (gc self1) = Some items') as H1 by apply dict_get_set_eq.
    rewrite (refresh_gui_data_registered _ _ _ _ _ H1).
    rewrite (refresh_items_same static_names skip_static self self1) by reflexivity.
    subst items' ev. rewrite refresh_items_again.
    unfold outcome, state_after, trace, self1, with_gc. simpl.
    now rewrite dict_set_set.
  - rewrite (refresh_gui_data_unregistered _ _ _ _ Hitems).
    change (state_after (@Raise unit (KeyError uuid), self, @nil event)) with self.
    now rewrite (refresh_gui_data_unregistered _ _ _ _ Hitems).
Qed.

Lemma refresh_items_processed static_names self uuid skip_static items :
  snd (refresh_items static_names self uuid skip_static items)
  = flat_map (fun entry =>
                [DataGet uuid (fst entry);
                 SetText uuid (fst entry) (label (snd entry))
                   (render_value (max_width self) (fst entry)
                      (data_lookup (data_dict self) uuid (fst entry)))])
      (processed static_names skip_static items).
Proof.
  induction items as [|[n it] rest IH]; [reflexivity|].
  rewrite refresh_items_cons. simpl. rewrite IH. unfold refresh_item.
  destruct (is_skipped static_names skip_static n); reflexivity.
Qed.

(** X3: a pass over a registered device reads the data source once and
    sets the label once, in that order, for every field it does not skip, the
    fields taken in the order they were registered; it does nothing else, so
    it issues two events per processed field. *)
Theorem refresh_one_read_one_write static_names self uuid skip_static items :
  dict_get uuid (gc self) = Some items ->
  let r := refresh_gui_data static_names uuid skip_static self in
  trace r
  = flat_map (fun entry =>
                [DataGet uuid (fst entry);
                 SetText uuid (fst entry) (label (snd entry))
                   (render_value (max_width self) (fst entry)
                      (data_lookup (data_dict self) uuid (fst entry)))])
      (processed static_names skip_static items)
  /\ length (trace r) = 2 * length (processed static_names skip_static items).
Proof.
  intros Hitems r. subst r. rewrite (refresh_gui_data_registered _ _ _ _ _ Hitems).
  unfold trace. simpl snd. rewrite refresh_items_processed. split; [reflexivity|].
  induction (processed static_names skip_static items) as [|e l IH]; [reflexivity|].
  simpl. rewrite IH. lia.
Qed.

Lemma refresh_one_read_one_write_witness :
  length (trace (refresh_gui_data example_static_names "ups-1" true example_gui)) = 8.
Proof.
  exact (proj2 (refresh_one_read_one_write example_static_names example_gui "ups-1" true
                  _ eq_refl)).
Defined.

Lemma refresh_items_no_skip static_names static_names' self uuid items :
  refresh_items static_names self uuid false items
  = refresh_items static_names' self uuid false items.
Proof.
  induction items as [|[n it] rest IH]; [reflexivity|].
  now rewrite !refresh_items_cons, IH.
Qed.

Lemma refresh_no_skip static_names static_names' self uuid :
  refresh_gui_data static_names uuid false self
  = refresh_gui_data static_names' uuid false self.
Proof.
  unfold refresh_gui_data. destruct (dict_get uuid (gc self)); [|reflexivity].
  now rewrite (refresh_items_no_skip static_names static_names').
Qed.

Lemma refresh_items_empty_table self uuid skip_static items :
  refresh_items [] self uuid skip_static items = refresh_items [] self uuid false items.
Proof.
  induction items as [|[n it] rest IH]; [reflexivity|].
  rewrite !refresh_items_cons, IH. unfold refresh_item, is_skipped.
  rewrite bool_decide_false by apply not_elem_of_nil. now rewrite andb_false_r.
Qed.

(** X4: the table of static names matters only when static fields are to
    be skipped: without [skip_static] a pass over a device, and a pass over all
    devices, do the same whatever the table holds; and skipping with an empty
    table skips nothing. *)
Theorem static_table_only_when_skipping static_names static_names' self :
  (forall uuid, refresh_gui_data static_names uuid false self
                = refresh_gui_data static_names' uuid false self)
  /\ all_refresh_gui_data static_names false self
     = all_refresh_gui_data static_names' false self
  /\ (forall uuid, refresh_gui_data [] uuid true self = refresh_gui_data [] uuid false self).
Proof.
  split; [intros uuid; apply refresh_no_skip|]. split.
  - unfold all_refresh_gui_data. generalize (uuids (data_dict self)) as ids.
    intros ids. revert self. induction ids as [|u ids IH]; intros self; [reflexivity|].
    rewrite !refresh_each_cons, !bind_run, (refresh_no_skip static_names static_names').
    destruct (outcome _); [|reflexivity]. now rewrite IH.
  - intros uuid. unfold refresh_gui_data. destruct (dict_get uuid (gc self)); [|reflexivity].
    now rewrite refresh_items_empty_table.
Qed.

(** X5: with no device registered, a pass over all devices returns at once
    when the data source enumerates none and otherwise raises [KeyError] for
    the first id enumerated; with a data source that enumerates no device it
    returns at once whatever is registered.  Either way the registry is as it
    was and nothing has been read or set. *)
Theorem all_refresh_nothing_to_do static_names skip_static self :
  (gc self = [] ->
     all_refresh_gui_data static_names skip_static self
     = (match uuids (data_dict self) with
        | [] => Ok tt
        | uuid :: _ => Raise (KeyError uuid)
        end, self, []))
  /\ (data_dict self = [] ->
      all_refresh_gui_data static_names skip_static self = (Ok tt, self, [])).
Proof.
  split; intros H; unfold all_refresh_gui_data.
  - destruct (uuids (data_dict self)) as [|u ids]; [reflexivity|].
    rewrite refresh_each_cons, bind_run.
    assert (dict_get u (gc self) = None) as Hu by now rewrite H.
    now rewrite (refresh_gui_data_unregistered _ _ _ _ Hu).
  - now rewrite H.
Qed.

Lemma all_refresh_nothing_to_do_witness :
  all_refresh_gui_data example_static_names false (GuiComp_init example_data 10)
  = (Raise (KeyError "ups-1"), GuiComp_init example_data 10, [])
  /\ all_refresh_gui_data example_static_names false
       {| gc := gc example_gui; data_dict := []; max_width := 10 |}
     = (Ok tt, {| gc := gc example_gui; data_dict := []; max_width := 10 |}, []).
Proof.
  split.
  - exact (proj1 (all_refresh_nothing_to_do example_static_names false
                    (GuiComp_init example_data 10)) eq_refl).
  - exact (proj2 (all_refresh_nothing_to_do example_static_names false
                    {| gc := gc example_gui; data_dict := []; max_width := 10 |}) eq_refl).
Defined.

(** ** What a label can show *)

Lemma pretty_N_go_not_empty x s : s <> "" -> pretty_N_go x s <> "".
Proof.
  revert s. induction (N.lt_wf_0 x) as [x _ IH]; intros s Hs.
  assert (x = 0 \/ 0 < x)%N as [->|Hx] by lia.
  - now rewrite pretty_N_go_0.
  - rewrite pretty_N_go_step by assumption. apply IH; [|discriminate].
    apply N.div_lt; lia.
Qed.

Lemma pretty_Z_not_empty (n : Z) : pretty n <> "".
Proof.
  assert (forall p, pretty (N.pos p) <> "") as Hpos.
  { intros p. unfold pretty, pretty_N. rewrite decide_False by discriminate.
    rewrite pretty_N_go_step by lia. apply pretty_N_go_not_empty. discriminate. }
  destruct n as [|p|p]; [discriminate | apply Hpos | discriminate].
Qed.

Lemma resolve_value_not_empty item_name read :
  py_str (resolve_value item_name read) <> "".
Proof.
  unfold resolve_value. destruct (py_in _ no_data_values) eqn:Hin.
  - simpl. destruct (bool_decide _); discriminate.
  - destruct read as [[|s|n|[]]|]; try discriminate; simpl.
    + intros ->. discriminate Hin.
    + apply pretty_Z_not_empty.
Qed.

Lemma str_take_not_empty n s : 0 < n -> s <> "" -> str_take n s <> "".
Proof.
  destruct n as [|n]; [lia|]. destruct s; [congruence | discriminate].
Qed.

(** X6: with a maximum width of at least one character a pass never blanks
    a label: the text it sets for a field it processes, and caches, is not
    empty, whatever the data source holds for the field. *)
Theorem refresh_text_not_empty static_names self uuid skip_static item_name it :
  (1 <= max_width self)%Z ->
  binding self uuid item_name = Some it ->
  skip_static = false \/ item_name ∉ static_names ->
  let r := refresh_gui_data static_names uuid skip_static self in
  exists text,
    text <> ""
    /\ binding (state_after r) uuid item_name = Some (set_data it text)
    /\ SetText uuid item_name (label it) text ∈ trace r.
Proof.
  intros Hw Hb Hskip r.
  destruct (refresh_gui_data_shown static_names self uuid skip_static item_name it Hb Hskip)
    as (_ & Hafter & Hset & _).
  eexists. split; [|split; [exact Hafter | exact Hset]].
  rewrite py_slice_to_nonneg by lia.
  apply str_take_not_empty; [lia | apply resolve_value_not_empty].
Qed.

Lemma refresh_text_not_empty_witness :
  exists text,
    text <> ""
    /\ binding (state_after (refresh_gui_data example_static_names "ups-1" false example_gui))
         "ups-1" "mib_system_status"
       = Some (ItemDict 3 (Some 30) (Some "sys_stat_box") text).
Proof.
  assert (1 <= max_width example_gui)%Z as Hw by (vm_compute; discriminate).
  destruct (refresh_text_not_empty example_static_names example_gui "ups-1" false
              "mib_system_status" (ItemDict 3 (Some 30) (Some "sys_stat_box") "---")
              Hw eq_refl (or_introl eq_refl)) as (text & Ha & Hb & _).
  exists text. split; assumption.
Defined.

(** ** Registering: order and what stays fixed *)

(** X7: two calls of [add] for different keys can be made in either order:
    every binding of the registry is the same afterwards. *)
Theorem add_order_irrelevant self uuid1 name1 label1 box1 box_name1
    uuid2 name2 label2 box2 box_name2 :
  uuid1 <> uuid2 \/ name1 <> name2 ->
  forall uuid item_name,
    binding (state_after (add uuid2 name2 label2 box2 box_name2
                            (state_after (add uuid1 name1 label1 box1 box_name1 self))))
      uuid item_name
    = binding (state_after (add uuid1 name1 label1 box1 box_name1
                              (state_after (add uuid2 name2 label2 box2 box_name2 self))))
        uuid item_name.
Proof.
  intros Hne uuid n.
  destruct (decide (uuid = uuid1 /\ n = name1)) as [[-> ->]|H1].
  - rewrite add_binding_eq, add_binding_ne by tauto. now rewrite add_binding_eq.
  - assert (uuid <> uuid1 \/ n <> name1) as H1'
      by (destruct (decide (uuid = uuid1)); [right; intros ->; tauto | now left]).
    destruct (decide (uuid = uuid2 /\ n = name2)) as [[-> ->]|H2].
    + rewrite add_binding_eq, add_binding_ne by assumption. now rewrite add_binding_eq.
    + assert (uuid <> uuid2 \/ n <> name2) as H2'
        by (destruct (decide (uuid = uuid2)); [right; intros ->; tauto | now left]).
      now rewrite !add_binding_ne by assumption.
Qed.

Lemma add_order_irrelevant_witness :
  binding (state_after (add "ups-2" "mib_ups_name" 8 None None
                          (state_after (add "ups-1" "mib_ups_name" 7 None None example_gui))))
    "ups-1" "mib_ups_name"
  = binding (state_after (add "ups-1" "mib_ups_name" 7 None None
                            (state_after (add "ups-2" "mib_ups_name" 8 None None example_gui))))
      "ups-1" "mib_ups_name".
Proof.
  assert ("ups-1" <> "ups-2") as Hne by discriminate.
  exact (add_order_irrelevant example_gui "ups-1" "mib_ups_name" 7 None None
           "ups-2" "mib_ups_name" 8 None None (or_introl Hne) "ups-1" "mib_ups_name").
Defined.

Lemma run_call_config static_names c self :
  let self' := state_after (run_call static_names c self) in
  max_width self' = max_width self
  /\ data_dict self' = match c with DataChange d => d | _ => data_dict self end.
Proof.
  destruct c as [u n l b bn|u skip|skip|d]; simpl.
  - now rewrite add_returns.
  - destruct (refresh_gui_data_config static_names self u skip) as [Hd Hw]. now split.
  - destruct (refresh_each_only_data_differs static_names skip (uuids (data_dict self)) self)
      as (Hd & Hw & _). now split.
  - now split.
Qed.

(** X8: no method of the registry changes its maximum width or its data
    source: after any sequence of calls the width is the one given at
    construction, and the data source is the one the application installed
    last (the one given at construction if it installed none). *)
Theorem run_calls_keeps_config static_names cs self :
  max_width (run_calls static_names cs self) = max_width self
  /\ data_dict (run_calls static_names cs self) = last_data_change cs (data_dict self).
Proof.
  revert self. induction cs as [|c cs IH]; intros self; [now split|].
  simpl. destruct (IH (state_after (run_call static_names c self))) as [Hw Hd].
  destruct (run_call_config static_names c self) as [Hw' Hd'].
  split; [congruence|]. rewrite Hd, Hd'. unfold last_data_change. simpl.
  now destruct c.
Qed.

Lemma run_call_keys static_names c self :
  dict_keys (gc (state_after (run_call static_names c self)))
  = fold_left see
      (added_uuids [c]) (dict_keys (gc self)).
Proof.
  destruct (classic_call c) as [(u & n & l & b & bn & ->)|Hc].
  - simpl. rewrite add_returns. unfold state_after. simpl.
    destruct (decide (u ∈ dict_keys (gc self))) as [Hin|Hout].
    + unfold see. rewrite bool_decide_true by assumption. now apply dict_keys_set_old.
    + unfold see. rewrite bool_decide_false by assumption. now apply dict_keys_set_new.
  - rewrite (proj1 (run_call_keeps_fields static_names c self Hc)).
    destruct c; try reflexivity. now destruct (Hc uuid name label0 box0 box_name0).
Qed.

Lemma run_call_names static_names c self uuid :
  default [] (fields_of (state_after (run_call static_names c self)) uuid)
  = fold_left see
      (added_names [c] uuid) (default [] (fields_of self uuid)).
Proof.
  destruct (classic_call c) as [(u & n & l & b & bn & ->)|Hc].
  - simpl. destruct (decide (u = uuid)) as [->|Hne].
    + rewrite bool_decide_true by reflexivity. simpl. rewrite add_fields_eq. simpl.
      unfold see. destruct (fields_of self uuid) as [names|]; simpl.
      * destruct (decide (n ∈ names)).
        -- now rewrite bool_decide_true.
        -- now rewrite bool_decide_false.
      * reflexivity.
    + rewrite bool_decide_false by assumption. simpl. now rewrite add_fields_ne.
  - rewrite (proj2 (run_call_keeps_fields static_names c self Hc)).
    destruct c; try reflexivity. now destruct (Hc uuid0 name label0 box0 box_name0).
Qed.

Lemma added_uuids_cons c cs : added_uuids (c :: cs) = added_uuids [c] ++ added_uuids cs.
Proof. unfold added_uuids. simpl. now rewrite app_nil_r. Qed.

Lemma added_names_cons c cs uuid :
  added_names (c :: cs) uuid = added_names [c] uuid ++ added_names cs uuid.
Proof. unfold added_names. simpl. now rewrite app_nil_r. Qed.

(** X9: a registry enumerates its devices in the order in which they were
    first passed to [add], and the fields of a device in the order in which
    they were first passed to [add] for it; adding a key again, and
    refreshing, do not move it. *)
Theorem registry_order_is_first_add static_names cs data_dict max_width :
  let self := run_calls static_names cs (GuiComp_init data_dict max_width) in
  map fst (GuiComp_items self) = first_seen (added_uuids cs)
  /\ forall uuid,
       default [] (fields_of self uuid) = first_seen (added_names cs uuid).
Proof.
  assert (forall cs self,
            dict_keys (gc (run_calls static_names cs self))
            = fold_left see
                (added_uuids cs) (dict_keys (gc self))) as Hkeys.
  { clear cs. induction cs as [|c cs IH]; intros self; [reflexivity|].
    simpl run_calls. rewrite IH, run_call_keys, (added_uuids_cons c cs).
    now rewrite fold_left_app. }
  assert (forall uuid cs self,
            default [] (fields_of (run_calls static_names cs self) uuid)
            = fold_left see
                (added_names cs uuid) (default [] (fields_of self uuid))) as Hnames.
  { clear cs. intros uuid. induction cs as [|c cs IH]; intros self; [reflexivity|].
    simpl run_calls. rewrite IH, run_call_names, (added_names_cons c cs).
    now rewrite fold_left_app. }
  split.
  - apply Hkeys.
  - intros uuid. apply Hnames.
Qed.

(** ** Hex codes and colour tuples *)

Lemma hex_digit_value c v : hex_digit c = Some v -> (0 <= v <= 15)%Z.
Proof.
  intros H. destruct c as [[] [] [] [] [] [] [] []]; vm_compute in H;
    try discriminate H; injection H as <-; lia.
Qed.

Lemma hex_digit_lower c : hex_digit (ascii_lower c) = hex_digit c.
Proof. destruct c as [[] [] [] [] [] [] [] []]; reflexivity. Qed.

Lemma ascii_lower_hash c : bool_decide (ascii_lower c = "#"%char) = bool_decide (c = "#"%char).
Proof. destruct c as [[] [] [] [] [] [] [] []]; reflexivity. Qed.

(** The lower-case digit of a value: the one character, up to case, that
    [hex_digit] reads as that value. *)
Lemma hex_digit_lower_char c v :
  hex_digit c = Some v ->
  ascii_lower c = ascii_of_N (Z.to_N (if (v <? 10)%Z then v + 48 else v + 87)).
Proof.
  intros H. destruct c as [[] [] [] [] [] [] [] []]; vm_compute in H;
    try discriminate H; injection H as <-; reflexivity.
Qed.

Lemma six_hex_digits_inv s :
  six_hex_digits s = true ->
  exists c1 c2 c3 c4 c5 c6 v1 v2 v3 v4 v5 v6,
    s = String c1 (String c2 (String c3 (String c4 (String c5 (String c6 "")))))
    /\ hex_digit c1 = Some v1 /\ hex_digit c2 = Some v2 /\ hex_digit c3 = Some v3
    /\ hex_digit c4 = Some v4 /\ hex_digit c5 = Some v5 /\ hex_digit c6 = Some v6.
Proof.
  unfold six_hex_digits.
  destruct s as [|c1 [|c2 [|c3 [|c4 [|c5 [|c6 [|c7 s]]]]]]]; try discriminate.
  simpl. unfold is_hex_digit.
  destruct (hex_digit c1) as [v1|] eqn:H1; [|discriminate].
  destruct (hex_digit c2) as [v2|] eqn:H2; [|discriminate].
  destruct (hex_digit c3) as [v3|] eqn:H3; [|discriminate].
  destruct (hex_digit c4) as [v4|] eqn:H4; [|discriminate].
  destruct (hex_digit c5) as [v5|] eqn:H5; [|discriminate].
  destruct (hex_digit c6) as [v6|] eqn:H6; [|discriminate].
  intros _. exists c1, c2, c3, c4, c5, c6, v1, v2, v3, v4, v5, v6.
  repeat split; assumption.
Qed.

(** An accepted text is its six digits, or [#] and its six digits. *)
Lemma HEXRGB_fullmatch_inv value :
  HEXRGB_fullmatch value = true ->
  six_hex_digits (strip_hash value) = true
  /\ (value = strip_hash value \/ value = String "#" (strip_hash value)).
Proof.
  unfold HEXRGB_fullmatch. intros H. split; [exact H|].
  destruct value as [|c rest]; [now left|]. simpl.
  destruct (decide (c = "#"%char)) as [->|Hne].
  - right. reflexivity.
  - left. now rewrite bool_decide_false.
Qed.

(** What an accepted text is converted to, from its digits. *)
Lemma hex_to_rgba_accepted value :
  HEXRGB_fullmatch value = true ->
  exists c1 c2 c3 c4 c5 c6 v1 v2 v3 v4 v5 v6,
    strip_hash value
    = String c1 (String c2 (String c3 (String c4 (String c5 (String c6 "")))))
    /\ hex_digit c1 = Some v1 /\ hex_digit c2 = Some v2 /\ hex_digit c3 = Some v3
    /\ hex_digit c4 = Some v4 /\ hex_digit c5 = Some v5 /\ hex_digit c6 = Some v6
    /\ hex_to_rgba HEXRGB_fullmatch value
       = Ok (PyFloatNum (div_255 (16 * v1 + v2)), PyFloatNum (div_255 (16 * v3 + v4)),
             PyFloatNum (div_255 (16 * v5 + v6)), PyIntNum 1).
Proof.
  intros Hacc. destruct (HEXRGB_fullmatch_inv value Hacc) as [Hsix Hvalue].
  destruct (six_hex_digits_inv _ Hsix)
    as (c1 & c2 & c3 & c4 & c5 & c6 & v1 & v2 & v3 & v4 & v5 & v6 & Hd & H1 & H2 & H3 & H4 & H5 & H6).
  exists c1, c2, c3, c4, c5, c6, v1, v2, v3, v4, v5, v6.
  repeat (split; [assumption|]).
  destruct (hex_to_rgba_digits HEXRGB_fullmatch _ _ _ _ _ _ _ _ _ _ _ _ H1 H2 H3 H4 H5 H6)
    as [Hplain Hhash].
  rewrite Hd in Hvalue. destruct Hvalue as [Hv|Hv]; rewrite Hv in Hacc |- *; auto.
Qed.

Lemma channel_values_In n : (0 <= n <= 255)%Z -> In n channel_values.
Proof.
  intros H. unfold channel_values. rewrite <- (Z2Nat.id n) by lia.
  apply in_map, in_seq. lia.
Qed.

Lemma div_255_in_unit_interval n :
  (0 <= n <= 255)%Z -> in_unit_interval (PyFloatNum (div_255 n)) = true.
Proof.
  intros H. apply channel_values_In in H. revert n H. apply forallb_forall.
  vm_compute. reflexivity.
Qed.

Lemma div_255_inj n m :
  (0 <= n <= 255)%Z -> (0 <= m <= 255)%Z -> div_255 n = div_255 m -> n = m.
Proof.
  intros Hn Hm Heq. apply channel_values_In in Hn, Hm.
  assert (forallb (fun n => PrimFloat.eqb (div_255 n) (div_255 n)) channel_values = true)
    as Hself by (vm_compute; reflexivity).
  assert (forallb (fun n => forallb (fun m =>
            implb (PrimFloat.eqb (div_255 n) (div_255 m)) (n =? m)%Z) channel_values)
            channel_values = true) as Hpairs by (vm_compute; reflexivity).
  pose proof (proj1 (forallb_forall _ _) Hself n Hn) as Hnn. simpl in Hnn.
  pose proof (proj1 (forallb_forall _ _) (proj1 (forallb_forall _ _) Hpairs n Hn) m Hm) as Hnm.
  simpl in Hnm. rewrite <- Heq, Hnn in Hnm. simpl in Hnm. now apply Z.eqb_eq.
Qed.

(** X10: whatever text [hex_to_rgba] converts, each of the three channels
    of the tuple lies between [0.0] and [1.0], both included. *)
Theorem hex_to_rgba_channels_bounded value r g b a :
  hex_to_rgba HEXRGB_fullmatch value = Ok (r, g, b, a) ->
  in_unit_interval r = true /\ in_unit_interval g = true /\ in_unit_interval b = true.
Proof.
  intros H.
  assert (HEXRGB_fullmatch value = true) as Hacc.
  { unfold hex_to_rgba in H. destruct (HEXRGB_fullmatch value); [reflexivity | discriminate H]. }
  destruct (hex_to_rgba_accepted value Hacc)
    as (c1 & c2 & c3 & c4 & c5 & c6 & v1 & v2 & v3 & v4 & v5 & v6
        & _ & H1 & H2 & H3 & H4 & H5 & H6 & Hconv).
  rewrite Hconv in H. injection H as <- <- <- _.
  apply hex_digit_value in H1, H2, H3, H4, H5, H6.
  repeat split; apply div_255_in_unit_interval; lia.
Qed.

Lemma hex_to_rgba_channels_bounded_witness :
  in_unit_interval (PyFloatNum (div_255 183)) = true
  /\ in_unit_interval (PyFloatNum (div_255 55)) = true
  /\ in_unit_interval (PyFloatNum (div_255 67)) = true.
Proof.
  exact (hex_to_rgba_channels_bounded "#B73743" (PyFloatNum (div_255 183))
           (PyFloatNum (div_255 55)) (PyFloatNum (div_255 67)) (PyIntNum 1) eq_refl).
Defined.

Lemma str_lower_length s : String.length (str_lower s) = String.length s.
Proof. induction s as [|c s IH]; simpl; congruence. Qed.

Lemma str_lower_all_hex s : all_hex (str_lower s) = all_hex s.
Proof.
  induction s as [|c s IH]; [reflexivity|]. simpl. unfold is_hex_digit.
  now rewrite hex_digit_lower, IH.
Qed.

Lemma str_lower_strip_hash value : strip_hash (str_lower value) = str_lower (strip_hash value).
Proof.
  destruct value as [|c rest]; [reflexivity|]. simpl. rewrite ascii_lower_hash.
  now destruct (bool_decide (c = "#"%char)).
Qed.

Lemma HEXRGB_fullmatch_lower value :
  HEXRGB_fullmatch (str_lower value) = HEXRGB_fullmatch value.
Proof.
  unfold HEXRGB_fullmatch, six_hex_digits.
  now rewrite str_lower_strip_hash, str_lower_length, str_lower_all_hex.
Qed.

Lemma hex_to_rgba_lower value :
  HEXRGB_fullmatch value = true ->
  hex_to_rgba HEXRGB_fullmatch (str_lower value) = hex_to_rgba HEXRGB_fullmatch value.
Proof.
  intros Hacc.
  destruct (hex_to_rgba_accepted value Hacc)
    as (c1 & c2 & c3 & c4 & c5 & c6 & v1 & v2 & v3 & v4 & v5 & v6
        & Hd & H1 & H2 & H3 & H4 & H5 & H6 & ->).
  assert (HEXRGB_fullmatch (str_lower value) = true) as Hacc'
    by now rewrite HEXRGB_fullmatch_lower.
  destruct (hex_to_rgba_accepted _ Hacc')
    as (d1 & d2 & d3 & d4 & d5 & d6 & w1 & w2 & w3 & w4 & w5 & w6
        & Hd' & G1 & G2 & G3 & G4 & G5 & G6 & ->).
  rewrite str_lower_strip_hash, Hd in Hd'. simpl in Hd'.
  injection Hd' as <- <- <- <- <- <-.
  rewrite hex_digit_lower in G1, G2, G3, G4, G5, G6. congruence.
Qed.

(** X11: the case of the hexadecimal digits does not matter to
    [hex_to_rgba]: of two texts that differ only in case, either both are
    refused or both are converted, and then to the same tuple. *)
Theorem hex_to_rgba_ignores_case value value' :
  str_lower value = str_lower value' ->
  HEXRGB_fullmatch value = HEXRGB_fullmatch value'
  /\ (forall colour, hex_to_rgba HEXRGB_fullmatch value = Ok colour ->
                     hex_to_rgba HEXRGB_fullmatch value' = Ok colour).
Proof.
  intros Hlow.
  assert (HEXRGB_fullmatch value = HEXRGB_fullmatch value') as Hsame
    by now rewrite <- (HEXRGB_fullmatch_lower value), Hlow, HEXRGB_fullmatch_lower.
  split; [exact Hsame|]. intros colour H.
  assert (HEXRGB_fullmatch value = true) as Hacc.
  { unfold hex_to_rgba in H. destruct (HEXRGB_fullmatch value); [reflexivity | discriminate H]. }
  rewrite <- hex_to_rgba_lower by congruence.
  rewrite <- Hlow, hex_to_rgba_lower by assumption. exact H.
Qed.

Lemma hex_to_rgba_ignores_case_witness :
  hex_to_rgba HEXRGB_fullmatch "#80808D"
  = Ok (PyFloatNum (div_255 128), PyFloatNum (div_255 128), PyFloatNum (div_255 141), PyIntNum 1).
Proof.
  exact (proj2 (hex_to_rgba_ignores_case "#80808d" "#80808D" eq_refl) _ eq_refl).
Defined.

(** X12: [hex_to_rgba] loses nothing: two texts converted to the same
    tuple have the same six digits, up to case. *)
Theorem hex_to_rgba_injective value value' colour :
  hex_to_rgba HEXRGB_fullmatch value = Ok colour ->
  hex_to_rgba HEXRGB_fullmatch value' = Ok colour ->
  str_lower (strip_hash value) = str_lower (strip_hash value').
Proof.
  intros H H'.
  assert (HEXRGB_fullmatch value = true) as Hacc.
  { unfold hex_to_rgba in H. destruct (HEXRGB_fullmatch value); [reflexivity | discriminate H]. }
  assert (HEXRGB_fullmatch value' = true) as Hacc'.
  { unfold hex_to_rgba in H'. destruct (HEXRGB_fullmatch value'); [reflexivity | discriminate H']. }
  destruct (hex_to_rgba_accepted value Hacc)
    as (c1 & c2 & c3 & c4 & c5 & c6 & v1 & v2 & v3 & v4 & v5 & v6
        & Hd & H1 & H2 & H3 & H4 & H5 & H6 & Hconv).
  destruct (hex_to_rgba_accepted value' Hacc')
    as (d1 & d2 & d3 & d4 & d5 & d6 & w1 & w2 & w3 & w4 & w5 & w6
        & Hd' & G1 & G2 & G3 & G4 & G5 & G6 & Hconv').
  rewrite Hconv in H. rewrite Hconv', <- H in H'.
  injection H' as Hr Hg Hb.
  pose proof (hex_digit_value _ _ H1). pose proof (hex_digit_value _ _ H2).
  pose proof (hex_digit_value _ _ H3). pose proof (hex_digit_value _ _ H4).
  pose proof (hex_digit_value _ _ H5). pose proof (hex_digit_value _ _ H6).
  pose proof (hex_digit_value _ _ G1). pose proof (hex_digit_value _ _ G2).
  pose proof (hex_digit_value _ _ G3). pose proof (hex_digit_value _ _ G4).
  pose proof (hex_digit_value _ _ G5). pose proof (hex_digit_value _ _ G6).
  apply div_255_inj in Hr, Hg, Hb; try lia.
  assert (v1 = w1 /\ v2 = w2 /\ v3 = w3 /\ v4 = w4 /\ v5 = w5 /\ v6 = w6)
    as (-> & -> & -> & -> & -> & ->) by lia.
  rewrite Hd, Hd'. simpl.
  now rewrite (hex_digit_lower_char _ _ H1), (hex_digit_lower_char _ _ H2),
    (hex_digit_lower_char _ _ H3), (hex_digit_lower_char _ _ H4),
    (hex_digit_lower_char _ _ H5), (hex_digit_lower_char _ _ H6),
    (hex_digit_lower_char _ _ G1), (hex_digit_lower_char _ _ G2),
    (hex_digit_lower_char _ _ G3), (hex_digit_lower_char _ _ G4),
    (hex_digit_lower_char _ _ G5), (hex_digit_lower_char _ _ G6).
Qed.

Lemma hex_to_rgba_injective_witness :
  str_lower (strip_hash "#80808d") = str_lower (strip_hash "80808D").
Proof.
  exact (hex_to_rgba_injective "#80808d" "80808D" _ eq_refl eq_refl).
Defined.

(** X13: [get_color] is [color_name_to_hex]; what it returns for a name is
    that name's entry of the palette, always a [#] followed by six hexadecimal
    digits; and [color_name_to_rgba] is [hex_to_rgba] applied to what
    [get_color] returns, with the error of [get_color] when it raises. *)
Theorem get_color_feeds_rgba pat name :
  color_name_to_rgba pat name = result_bind (get_color name) (hex_to_rgba pat)
  /\ (forall hex, get_color name = Ok hex ->
        dict_get name _colors = Some hex
        /\ exists digits, hex = String "#" digits /\ six_hex_digits digits = true).
Proof.
  unfold get_color, color_name_to_hex, color_name_to_rgba, colors_getitem, dict_in.
  destruct (dict_get name _colors) as [hex|] eqn:Hname; simpl; [|split; [reflexivity|discriminate]].
  split; [reflexivity|]. intros hex' H. injection H as <-. split; [reflexivity|].
  apply dict_get_Some_elem in Hname. unfold _colors in Hname.
  repeat (apply elem_of_cons in Hname as [Hname|Hname];
          [injection Hname as -> ->; eexists; split; reflexivity|]).
  now apply elem_of_nil in Hname.
Qed.

Lemma get_color_feeds_rgba_witness :
  dict_get "red" _colors = Some "#B73743"
  /\ exists digits, "#B73743" = String "#" digits /\ six_hex_digits digits = true.
Proof.
  exact (proj2 (get_color_feeds_rgba HEXRGB_fullmatch "red") "#B73743" eq_refl).
Defined.

(** ** Widget properties *)

Lemma truthy_int_again x : GtkProp.truthy_int (GtkProp.truthy_int x) = GtkProp.truthy_int x.
Proof.
  destruct x as [n|]; [|reflexivity]. simpl.
  destruct (bool_decide (n = 0%Z)) eqn:H; [reflexivity|]. simpl. now rewrite H.
Qed.

Lemma truthy_float_again x :
  GtkProp.truthy_float (GtkProp.truthy_float x) = GtkProp.truthy_float x.
Proof.
  destruct x as [f|]; [|reflexivity]. simpl.
  destruct (PrimFloat.eqb f 0) eqn:H; [reflexivity|]. simpl. now rewrite H.
Qed.

Lemma truthy_tuple_again x :
  GtkProp.truthy_tuple (GtkProp.truthy_tuple x) = GtkProp.truthy_tuple x.
Proof. now destruct x as [[|f t]|]. Qed.

Lemma when_nil {A} (x : option A) call : GtkProp.when x call = [] <-> x = None.
Proof. destruct x; simpl; split; congruence. Qed.

(** X14: [set_gtk_prop] treats an argument that is zero (an [int] or
    [float] zero, an empty tuple) exactly as one left out: the calls made are
    those for the arguments with the falsy ones removed, and no call at all is
    made exactly when every argument is left out or falsy.  A zero margin or
    width can therefore not be set through it. *)
Theorem set_gtk_prop_skips_falsy a :
  GtkProp.set_gtk_prop a = GtkProp.set_gtk_prop (GtkProp.truthy_args a)
  /\ (GtkProp.set_gtk_prop a = [] <-> GtkProp.truthy_args a = GtkProp.no_args)
  /\ (forall n, GtkProp.truthy_int (Some n) = None <-> n = 0%Z).
Proof.
  split; [|split].
  - unfold GtkProp.set_gtk_prop, GtkProp.truthy_args. simpl.
    now rewrite !truthy_int_again, truthy_float_again, truthy_tuple_again.
  - unfold GtkProp.set_gtk_prop, GtkProp.truthy_args, GtkProp.no_args. split.
    + intros H. repeat (apply app_eq_nil in H as [?%when_nil H]).
      apply when_nil in H. congruence.
    + intros H. injection H as -> -> -> -> -> -> -> -> -> ->. reflexivity.
  - intros n. simpl. destruct (decide (n = 0%Z)) as [->|Hne].
    + split; reflexivity.
    + rewrite bool_decide_false by assumption. split; [discriminate | contradiction].
Qed.




(** ** Style sheets on the screen *)


(** ** Skipping and caching *)

(** X18: [skip_static] makes a difference for static fields only: a field
    whose name is not in the static table ends a pass with the same entry
    whether the pass skips static fields or not. *)
Theorem skip_static_spares_other_fields static_names self uuid item_name :
  item_name ∉ static_names ->
  binding (state_after (refresh_gui_data static_names uuid true self)) uuid item_name
  = binding (state_after (refresh_gui_data static_names uuid false self)) uuid item_name.
Proof.
  intros Hout. destruct (dict_get uuid (gc self)) as [items|] eqn:Hitems.
  - rewrite !refresh_gui_data_binding by eauto.
    destruct (binding self uuid item_name) as [it|]; [simpl | reflexivity].
    unfold refresh_item.
    now rewrite (is_skipped_false static_names true item_name (or_intror Hout)).
  - now rewrite !(refresh_gui_data_unregistered _ _ _ _ Hitems).
Qed.

Lemma skip_static_spares_other_fields_witness :
  binding (state_after (refresh_gui_data example_static_names "ups-1" true example_gui))
    "ups-1" "mib_battery_capacity"
  = binding (state_after (refresh_gui_data example_static_names "ups-1" false example_gui))
      "ups-1" "mib_battery_capacity".
Proof.
  assert ("mib_battery_capacity" ∉ example_static_names) as H by compute_done.
  exact (skip_static_spares_other_fields example_static_names example_gui "ups-1"
           "mib_battery_capacity" H).
Defined.

(** X19: the cached value mirrors the label: after a pass, the text shown
    by the label of a processed field (a label bound to that field alone) is
    the value cached in the field's entry. *)
Theorem cached_value_is_label_text static_names self uuid skip_static items item_name it :
  dict_get uuid (gc self) = Some items ->
  dict_get item_name items = Some it ->
  skip_static = false \/ item_name ∉ static_names ->
  label_of_one_field items item_name it ->
  let r := refresh_gui_data static_names uuid skip_static self in
  label_text (trace r) (label it) = (data <$> binding (state_after r) uuid item_name).
Proof.
  intros Hitems Hit Hskip Hone r.
  assert (binding self uuid item_name = Some it) as Hb
    by (unfold binding; now rewrite Hitems).
  destruct (refresh_gui_data_shown static_names self uuid skip_static item_name it Hb Hskip)
    as (_ & Hafter & _ & Hlabel).
  subst r. rewrite Hafter, (Hlabel items Hitems Hone). reflexivity.
Qed.

Lemma cached_value_is_label_text_witness :
  let r := refresh_gui_data example_static_names "ups-1" false example_gui in
  label_text (trace r) 5 = (data <$> binding (state_after r) "ups-1" "mib_battery_capacity").
Proof.
  assert (label_of_one_field
            [ ("mib_ups_name", ItemDict 1 None None "---");
              ("mib_ups_model", ItemDict 2 None None "Smart-UPS ");
              ("mib_system_status", ItemDict 3 (Some 30) (Some "sys_stat_box") "---");
              ("mib_output_load", ItemDict 4 (Some 40) (Some "out_load_box") "17");
              ("mib_battery_capacity", ItemDict 5 None None "---");
              ("mib_system_temperature", ItemDict 6 None None "---") ]
            "mib_battery_capacity" (ItemDict 5 None None "---")) as Hone.
  { intros n it' Hin Hl.
    repeat (apply elem_of_cons in Hin as [Hin|Hin];
            [injection Hin as -> ->; first [reflexivity | discriminate Hl]|]).
    now apply elem_of_nil in Hin. }
  exact (cached_value_is_label_text example_static_names example_gui "ups-1" false _
           "mib_battery_capacity" (ItemDict 5 None None "---")
           eq_refl eq_refl (or_introl eq_refl) Hone).
Defined.
